(** * Compliance scoring engine of [validate-compliance.py]

    A shallow embedding of [ComplianceValidator]
    (templates/skills/engineering-standards/scripts/validate-compliance.py):
    the result aggregator ([_add_result]), the eight category evaluators,
    the scoring loop and grade selection of [validate_all], and
    [export_json].

    Modelling choices.
    - Python [int] is [Z]; Python [float] is IEEE binary64, taken from the
      Standard Library's [SpecFloat] at precision 53 and maximal exponent
      1024 (round to nearest, ties to even, as CPython does).
    - An [int] mixed into float arithmetic is converted first; CPython raises
      [OverflowError] when the rounded value is not finite.
    - [self.results] is a [dict]; iteration follows insertion order and the
      float sum of [validate_all] depends on it, so it is an association
      list with unique keys kept in insertion order.
    - A command of the validator returns a value or raises, and leaves
      the validator's state either way; [main] catches no exception, so a
      raised exception ends the run without a report.
    - The project directory is a finite tree of files and directories.
    - [config/rules-config.json] is not part of the sources: the loaded
      configuration is a typed record with the keys the script reads. *)

From Stdlib Require Import ZArith List String Ascii Bool Lia.
From Stdlib Require Import Floats.SpecFloat.
Import ListNotations.

Open Scope string_scope.
Open Scope list_scope.
Open Scope Z_scope.

(* ================================================================= *)
(** ** Exceptions and results *)

Inductive exn : Type :=
| OverflowError        (* int too large to convert to float *)
| TypeError            (* argument of type 'NoneType' is not iterable *)
| UnicodeDecodeError   (* strict decoding of a file failed *)
| PermissionError      (* open() refused *)
| IsADirectoryError.   (* read_text() on a directory *)

Inductive result (A : Type) : Type :=
| Ok (a : A)
| Raise (e : exn).

Arguments Ok {A} a.
Arguments Raise {A} e.

Definition rbind {A B : Type} (m : result A) (k : A -> result B) : result B :=
  match m with
  | Ok a => k a
  | Raise e => Raise e
  end.

Declare Scope result_scope.
Delimit Scope result_scope with result.
Notation "'let?' x ':=' m 'in' k" := (rbind m (fun x => k))
  (at level 10, x pattern, m at level 100, k at level 200) : result_scope.
Open Scope result_scope.

(* ================================================================= *)
(** ** Python numbers *)

Module PyNum.

Definition prec : Z := 53.
Definition emax : Z := 1024.

Definition float : Type := spec_float.

Definition fadd : float -> float -> float := SFadd prec emax.
Definition fmul : float -> float -> float := SFmul prec emax.
Definition fdiv : float -> float -> float := SFdiv prec emax.

(** [m * 2^e] rounded to binary64. *)
Definition round_to_float (m e : Z) : float :=
  binary_normalize prec emax m e false.

Definition is_finite (f : float) : bool :=
  match f with
  | S754_zero _ | S754_finite _ _ _ => true
  | S754_infinity _ | S754_nan => false
  end.

(** [float(n)] for an [int] operand of a float operation. *)
Definition float_of_int (n : Z) : result float :=
  let f := round_to_float n 0 in
  if is_finite f then Ok f else Raise OverflowError.

(** The literals [0.0], [0.5] and the converted literal [100]. *)
Definition f0 : float := S754_zero false.
Definition f0_5 : float := Eval vm_compute in round_to_float 1 (-1).
Definition f100 : float := Eval vm_compute in round_to_float 100 0.

(** A number as the script holds it: [overall_score] is the [int] [0] on
    one branch and a [float] on the other; [min_percent] comes from JSON. *)
Inductive pynum : Type :=
| PyInt (n : Z)
| PyFloat (f : float).

Definition signed (s : bool) (m : positive) : Z :=
  if s then Z.neg m else Z.pos m.

(** [f >= n], exact (CPython compares a float with an int without
    rounding the int). *)
Definition float_ge_int (f : float) (n : Z) : bool :=
  match f with
  | S754_nan => false
  | S754_infinity s => negb s
  | S754_zero _ => 0 >=? n
  | S754_finite s m e =>
      if 0 <=? e then signed s m * 2 ^ e >=? n
      else signed s m >=? n * 2 ^ (- e)
  end.

(** [n >= f], exact. *)
Definition int_ge_float (n : Z) (f : float) : bool :=
  match f with
  | S754_nan => false
  | S754_infinity s => s
  | S754_zero _ => n >=? 0
  | S754_finite s m e =>
      if 0 <=? e then n >=? signed s m * 2 ^ e
      else n * 2 ^ (- e) >=? signed s m
  end.

(** Python's [a >= b]. *)
Definition ge (a b : pynum) : bool :=
  match a, b with
  | PyInt x, PyInt y => x >=? y
  | PyFloat f, PyInt y => float_ge_int f y
  | PyInt x, PyFloat g => int_ge_float x g
  | PyFloat f, PyFloat g => SFleb g f
  end.

End PyNum.
Import PyNum.

(* ================================================================= *)
(** ** Data model *)

(** [@dataclass ValidationResult] *)
Record ValidationResult : Type := mkValidationResult {
  category : string;
  check_name : string;
  passed : bool;
  severity : string;          (* 'critical', 'warning', 'info' *)
  message : string;
  details : option string
}.

(** [@dataclass CategoryResult] *)
Record CategoryResult : Type := mkCategoryResult {
  name : string;
  weight : Z;
  checks_passed : Z;
  checks_failed : Z;
  checks_warned : Z;
  score : float;
  results : list ValidationResult
}.

(** [CategoryResult(name=category, weight=weight)]: the dataclass defaults. *)
Definition new_CategoryResult (n : string) (w : Z) : CategoryResult :=
  mkCategoryResult n w 0 0 0 f0 [].

(** [self.results : Dict[str, CategoryResult]], in insertion order. *)
Definition results_dict : Type := list (string * CategoryResult).

Fixpoint dict_get {V : Type} (k : string) (d : list (string * V)) : option V :=
  match d with
  | [] => None
  | (k', v) :: d' => if String.eqb k k' then Some v else dict_get k d'
  end.

Definition dict_mem {V : Type} (k : string) (d : list (string * V)) : bool :=
  match dict_get k d with
  | Some _ => true
  | None => false
  end.

Definition dict_keys {V : Type} (d : list (string * V)) : list string :=
  map fst d.

(** Update in place of the value stored under [k] (the script mutates the
    object it fetched with [self.results[category]]). *)
Fixpoint dict_adjust {V : Type} (f : V -> V) (k : string)
    (d : list (string * V)) : list (string * V) :=
  match d with
  | [] => []
  | (k', v) :: d' =>
      if String.eqb k k' then (k', f v) :: d'
      else (k', v) :: dict_adjust f k d'
  end.

(* ================================================================= *)
(** ** Rule configuration (the keys the script reads) *)

Record hooks_config : Type := {
  hooks_enabled : bool;
  pre_commit_commands : list string;
  pre_push_commands : list string
}.

Record documentation_config : Type := {
  documentation_enabled : bool;
  required_claude_sections : list string;
  wip_directory : string;
  guides_directory : string;
  architecture_directory : string;
  allowed_root_files : list string
}.

Record vitest_config : Type := {
  vitest_required : bool;
  vitest_config_file : string;
  required_scripts : list string
}.

Record playwright_config : Type := {
  required_for_web : bool;            (* [.get('required_for_web')] *)
  playwright_config_file : string
}.

Record testing_config : Type := {
  testing_enabled : bool;
  vitest : vitest_config;
  playwright : playwright_config
}.

Record tool_config : Type := {
  tool_required : bool;
  tool_config_file : string
}.

Record quality_script_config : Type := {
  quality_script_required : bool;
  quality_script_name : string
}.

Record quality_gates_config : Type := {
  quality_gates_enabled : bool;
  eslint : tool_config;
  typescript : tool_config;
  prettier : tool_config;
  quality_script : quality_script_config
}.

Record git_config : Type := {
  git_enabled : bool;
  gitignore_must_include : list string
}.

Record security_config : Type := {
  security_enabled : bool;
  env_example_file_name : string
}.

Record naming_config : Type := {
  naming_enabled : bool;
  forbidden_suffixes : list string
}.

Record migrations_config : Type := {
  enabled_for_supabase : bool         (* [.get('enabled_for_supabase')] *)
}.

(** The configurations that have every table the script subscripts; one
    without ['validation_categories'] makes [_add_result] raise [KeyError]
    at the first outcome ([weight_lookup] below) and is none of these. *)
Record config : Type := {
  (** category name -> its entry; [None] is an entry without a ['weight']. *)
  validation_categories : list (string * option Z);
  (** grade name -> ['min_percent'], in the order of the JSON document. *)
  compliance_grading : list (string * pynum);
  hooks : hooks_config;
  documentation : documentation_config;
  testing : testing_config;
  quality_gates : quality_gates_config;
  git : git_config;
  security : security_config;
  naming_conventions : naming_config;
  migrations : migrations_config
}.

(** [self.config['validation_categories'].get(category, {}).get('weight', 10)] *)
Definition configured_weight (cfg : config) (cat : string) : Z :=
  match dict_get cat (validation_categories cfg) with
  | Some (Some w) => w
  | Some None => 10
  | None => 10
  end.

(* ================================================================= *)
(** ** Result aggregator *)

(** The tallying branch of [_add_result], applied to the fetched category. *)
Definition tally (r : ValidationResult) (cat : CategoryResult) : CategoryResult :=
  let rs := results cat ++ [r] in
  if passed r then
    mkCategoryResult (name cat) (weight cat)
      (checks_passed cat + 1) (checks_failed cat) (checks_warned cat)
      (score cat) rs
  else if String.eqb (severity r) "critical" then
    mkCategoryResult (name cat) (weight cat)
      (checks_passed cat) (checks_failed cat + 1) (checks_warned cat)
      (score cat) rs
  else
    mkCategoryResult (name cat) (weight cat)
      (checks_passed cat) (checks_failed cat) (checks_warned cat + 1)
      (score cat) rs.

(** [ComplianceValidator._add_result] on the dictionary. *)
Definition _add_result (cfg : config) (r : ValidationResult)
    (d : results_dict) : results_dict :=
  let c := category r in
  let d1 :=
    if dict_mem c d then d
    else d ++ [(c, new_CategoryResult c (configured_weight cfg c))] in
  dict_adjust (tally r) c d1.

(** Recording a sequence of outcomes, first to last. *)
Definition record_all (cfg : config) (rs : list ValidationResult)
    (d : results_dict) : results_dict :=
  fold_left (fun acc r => _add_result cfg r acc) rs d.

(* ================================================================= *)
(** ** Scoring and grading ([validate_all], after the evaluators) *)

Definition total_checks (c : CategoryResult) : Z :=
  checks_passed c + checks_failed c + checks_warned c.

(** [((passed_score + warned_score) / total_checks) * 100] with
    [warned_score = result.checks_warned * 0.5]. *)
Definition category_score (c : CategoryResult) : result float :=
  let? w := float_of_int (checks_warned c) in
  let? p := float_of_int (checks_passed c) in
  let? t := float_of_int (total_checks c) in
  Ok (fmul (fdiv (fadd p (fmul w f0_5)) t) f100).

Definition set_score (c : CategoryResult) (s : float) : CategoryResult :=
  mkCategoryResult (name c) (weight c) (checks_passed c) (checks_failed c)
    (checks_warned c) s (results c).

(** The loop [for category, result in self.results.items()], threading
    [total_score] and [total_weight]. It returns the dictionary as the loop
    leaves it: each score is stored as soon as it is computed, also when a
    later conversion raises. *)
Fixpoint score_loop (d : results_dict) (total_score : float) (total_weight : Z)
    : results_dict * result (float * Z) :=
  match d with
  | [] => ([], Ok (total_score, total_weight))
  | (k, c) :: d' =>
      if total_checks c >? 0 then
        match category_score c with
        | Raise e => ((k, c) :: d', Raise e)
        | Ok s =>
            let c' := set_score c s in
            match float_of_int (weight c) with
            | Raise e => ((k, c') :: d', Raise e)
            | Ok w =>
                let weighted_score := fmul s w in
                let (d'', r) :=
                  score_loop d' (fadd total_score weighted_score)
                                (total_weight + weight c) in
                ((k, c') :: d'', r)
            end
        end
      else
        let (d'', r) := score_loop d' total_score total_weight in
        ((k, c) :: d'', r)
  end.

(** [total_score / total_weight if total_weight > 0 else 0] *)
Definition overall_of (total_score : float) (total_weight : Z) : result pynum :=
  if total_weight >? 0 then
    let? tw := float_of_int total_weight in
    Ok (PyFloat (fdiv total_score tw))
  else Ok (PyInt 0).

(** The grade loop: first band, in iteration order, that the score reaches. *)
Fixpoint determine_grade (bands : list (string * pynum)) (overall_score : pynum)
    : string :=
  match bands with
  | [] => "F"
  | (grade_name, min_percent) :: rest =>
      if ge overall_score min_percent then grade_name
      else determine_grade rest overall_score
  end.

(** The part of [validate_all] after the evaluators have run: the
    dictionary it leaves, and [(overall_score, grade)] or the exception. *)
Definition calculate (cfg : config) (d : results_dict)
    : results_dict * result (pynum * string) :=
  let (d', totals) := score_loop d f0 0 in
  (d',
   let? (ts, tw) := totals in
   let? overall_score := overall_of ts tw in
   Ok (overall_score,
       determine_grade (compliance_grading cfg) overall_score)).

(* ================================================================= *)
(** ** Strings as the script uses them *)

Module PyStr.

(** [needle in hay] *)
Fixpoint contains (needle hay : string) : bool :=
  String.prefix needle hay ||
  match hay with
  | EmptyString => false
  | String _ hay' => contains needle hay'
  end.

(** [s.endswith(suffix)] *)
Fixpoint endswith (s suffix : string) : bool :=
  String.eqb s suffix ||
  match s with
  | EmptyString => false
  | String _ s' => endswith s' suffix
  end.

(** [sep.join(l)] *)
Fixpoint join (sep : string) (l : list string) : string :=
  match l with
  | [] => ""
  | [x] => x
  | x :: l' => x ++ sep ++ join sep l'
  end.

Definition lower_ascii (c : ascii) : ascii :=
  let n := nat_of_ascii c in
  if ((65 <=? n) && (n <=? 90))%nat then ascii_of_nat (n + 32) else c.

(** [s.lower()] on ASCII letters; it is [str.lower()] on texts that are
    [ascii_only]. *)
Fixpoint lower (s : string) : string :=
  match s with
  | EmptyString => EmptyString
  | String c s' => String (lower_ascii c) (lower s')
  end.

(** [s.replace(a, b)] for one-character [a] and [b]. *)
Fixpoint replace (a b : ascii) (s : string) : string :=
  match s with
  | EmptyString => EmptyString
  | String c s' => String (if Ascii.eqb c a then b else c) (replace a b s')
  end.

(** [s.rstrip(c)], written as "drop [c] wherever only [c] follows". *)
Fixpoint rstrip (c : ascii) (s : string) : string :=
  match s with
  | EmptyString => EmptyString
  | String d s' =>
      match rstrip c s' with
      | EmptyString => if Ascii.eqb d c then EmptyString else String d EmptyString
      | t => String d t
      end
  end.

(** [s.split(c)] *)
Fixpoint split (c : ascii) (s : string) : list string :=
  match s with
  | EmptyString => [EmptyString]
  | String d s' =>
      if Ascii.eqb d c then EmptyString :: split c s'
      else match split c s' with
           | [] => [String d EmptyString]
           | w :: ws => String d w :: ws
           end
  end.

(** [s.rfind(c)] *)
Fixpoint rfind (c : ascii) (s : string) : option nat :=
  match s with
  | EmptyString => None
  | String d s' =>
      match rfind c s' with
      | Some i => Some (S i)
      | None => if Ascii.eqb d c then Some 0%nat else None
      end
  end.

Definition digit (n : nat) : ascii := ascii_of_nat (48 + n).

Fixpoint str_of_nat_aux (fuel n : nat) (acc : string) : string :=
  match fuel with
  | O => acc
  | S fuel' =>
      let acc' := String (digit (n mod 10)) acc in
      match (n / 10)%nat with
      | O => acc'
      | q => str_of_nat_aux fuel' q acc'
      end
  end.

(** [str(n)] for a length. *)
Definition str_of_nat (n : nat) : string := str_of_nat_aux (S n) n "".

(** The one-character string holding a double quote. *)
Definition dquote : string := String (ascii_of_nat 34) EmptyString.

(** [x in l] for a list of strings. *)
Definition mem (x : string) (l : list string) : bool :=
  existsb (String.eqb x) l.

End PyStr.

(* ================================================================= *)
(** ** The project snapshot *)

(** What reading a file gives: text; bytes that strict decoding rejects
    (with what [errors='ignore'] keeps of them); or a file that cannot be
    opened. *)
Inductive file_body : Type :=
| Text (s : string)
| Garbled (lossy : string)
| Locked.

#[warnings="-register-all"]
Inductive node : Type :=
| File (b : file_body)
| Dir (entries : list (string * node)).

(** Entries of a directory, in the order the operating system lists them. *)
Definition listing : Type := list (string * node).

(** A path below the project root, by components. *)
Definition path : Type := list string.

(** [str(p.relative_to(self.project_path))] *)
Definition path_str (p : path) : string := PyStr.join "/" p.

(** The last component, [p.name]. *)
Definition path_name (p : path) : string := last p "".

(** [self.project_path / s]: pathlib drops empty and ['.'] components.
    This is where [self.project_path / s] leads for a path that is
    relative and free of ['..'] ([plain_path] below); the statements that
    depend on where a configured path leads carry that as a hypothesis. *)
Definition parts (s : string) : path :=
  filter (fun c => negb (String.eqb c "" || String.eqb c "."))
         (PyStr.split "/" s).

Fixpoint lookup (p : path) (n : node) : option node :=
  match p with
  | [] => Some n
  | c :: p' =>
      match n with
      | File _ => None
      | Dir es =>
          match dict_get c es with
          | Some n' => lookup p' n'
          | None => None
          end
      end
  end.

Definition is_dir (n : node) : bool :=
  match n with Dir _ => true | File _ => false end.

Definition is_file (n : node) : bool :=
  match n with File _ => true | Dir _ => false end.

(** [Path.read_text()] and [Path.read_text(errors='ignore')]. *)
Definition read_text (ignore_errors : bool) (n : node) : result string :=
  match n with
  | Dir _ => Raise IsADirectoryError
  | File (Text s) => Ok s
  | File (Garbled lossy) =>
      if ignore_errors then Ok lossy else Raise UnicodeDecodeError
  | File Locked => Raise PermissionError
  end.

(** Shell-style matching of one name, as pathlib compiles a pattern part:
    [*] is any run of characters, [?] any one character, other characters
    stand for themselves. The patterns of the script
    (['*'], ['*.sql'], ['*.{ts,tsx,js,jsx}']) contain no bracket class;
    braces and commas have no special meaning. *)
Fixpoint glob_match (pat : string) : string -> bool :=
  match pat with
  | EmptyString =>
      fun s => match s with EmptyString => true | String _ _ => false end
  | String c pat' =>
      if Ascii.eqb c "*" then
        fix star (s : string) : bool :=
          glob_match pat' s ||
          match s with
          | EmptyString => false
          | String _ s' => star s'
          end
      else if Ascii.eqb c "?" then
        fun s => match s with
                 | EmptyString => false
                 | String _ s' => glob_match pat' s'
                 end
      else
        fun s => match s with
                 | EmptyString => false
                 | String d s' => Ascii.eqb c d && glob_match pat' s'
                 end
  end.

(** The directory at [here] and every directory below it, parents first. *)
Fixpoint directories (here : path) (n : node) : list (path * listing) :=
  match n with
  | File _ => []
  | Dir es =>
      (here, es) ::
      (fix below (l : listing) : list (path * listing) :=
         match l with
         | [] => []
         | (nm, child) :: l' => directories (here ++ [nm]) child ++ below l'
         end) es
  end.

(** [d.glob(pat)]: the entries of [d] whose name matches. *)
Definition glob_in (pat : string) (here : path) (es : listing)
    : list (path * node) :=
  map (fun e => (here ++ [fst e], snd e))
      (filter (fun e => glob_match pat (fst e)) es).

Definition glob (pat : string) (here : path) (n : node) : list (path * node) :=
  match n with
  | File _ => []
  | Dir es => glob_in pat here es
  end.

(** [d.rglob(pat)]: the matching entries of [d] and of every directory
    below it. *)
Definition rglob (pat : string) (here : path) (n : node) : list (path * node) :=
  flat_map (fun d => glob_in pat (fst d) (snd d)) (directories here n).

(** [p.stem]: the name without its last suffix. *)
Definition stem (nm : string) : string :=
  match PyStr.rfind "." nm with
  | Some i =>
      if ((0 <? i) && (i <? String.length nm - 1))%nat
      then substring 0 i nm else nm
  | None => nm
  end.

(* ================================================================= *)
(** ** The validator's state and its commands *)

(** [self.results], and the paths handed to [read_text] so far (most
    recent last). *)
Record state : Type := mkState {
  st_results : results_dict;
  st_reads : list string
}.

(** A command returns a value or raises, and leaves a state either way. *)
Definition M (A : Type) : Type := state -> result A * state.

Definition ret {A : Type} (a : A) : M A := fun s => (Ok a, s).

Definition bind {A B : Type} (m : M A) (k : A -> M B) : M B :=
  fun s => match m s with
           | (Ok a, s') => k a s'
           | (Raise e, s') => (Raise e, s')
           end.

Definition raise {A : Type} (e : exn) : M A := fun s => (Raise e, s).

Declare Scope eval_scope.
Delimit Scope eval_scope with eval.
Notation "x <- m ;; k" := (bind m (fun x => k))
  (at level 100, m at next level, right associativity) : eval_scope.
Notation "m ;; k" := (bind m (fun _ => k))
  (at level 100, right associativity) : eval_scope.
Open Scope eval_scope.

(** [for x in l: body(x)] *)
Fixpoint for_each {A : Type} (l : list A) (body : A -> M unit) : M unit :=
  match l with
  | [] => ret tt
  | x :: l' => body x ;; for_each l' body
  end.

(** [if c: body] *)
Definition when (c : bool) (body : M unit) : M unit :=
  if c then body else ret tt.

Section Validator.

Local Open Scope string_scope.

(** [self.config] and the tree at [self.project_path]. *)
Variable cfg : config.
Variable root : listing.

Definition add_result (r : ValidationResult) : M unit :=
  fun s => (Ok tt, mkState (_add_result cfg r (st_results s)) (st_reads s)).

Definition log_read (p : path) : M unit :=
  fun s => (Ok tt, mkState (st_results s) (st_reads s ++ [path_str p])%list).

(** [p.read_text(...)] as a command. *)
Definition do_read (ignore_errors : bool) (p : path) (n : node) : M string :=
  log_read p ;;
  match read_text ignore_errors n with
  | Ok s => ret s
  | Raise e => raise e
  end.

(** [_file_exists], for paths within the project tree: [Path.exists()]
    answers so for a [plain_path], on which it does not raise. *)
Definition _file_exists (p : string) : bool :=
  match lookup (parts p) (Dir root) with
  | Some _ => true
  | None => false
  end.

(** [_read_file]: the text, or [None] when the file is missing or
    [read_text] raised; [exists()], which stands before the [try], does
    not raise on a [plain_path]. *)
Definition _read_file (p : string) : M (option string) :=
  match lookup (parts p) (Dir root) with
  | Some n =>
      log_read (parts p) ;;
      match read_text false n with
      | Ok s => ret (Some s)
      | Raise _ => ret None
      end
  | None => ret None
  end.

(** [_check_file_contains] *)
Definition _check_file_contains (p pattern : string) : M bool :=
  content <- _read_file p ;;
  match content with
  | Some s => ret (PyStr.contains pattern s)
  | None => ret false
  end.

(** [pattern in content] where [content] may be [None]. *)
Definition contains_opt (pattern : string) (content : option string) : M bool :=
  match content with
  | Some s => ret (PyStr.contains pattern s)
  | None => raise TypeError
  end.

(** The first path of [candidates] that exists. *)
Fixpoint first_existing (candidates : list string) : option string :=
  match candidates with
  | [] => None
  | p :: rest => if _file_exists p then Some p else first_existing rest
  end.

(** *** Hooks *)

Definition validate_hooks : M unit :=
  if negb (hooks_enabled (hooks cfg)) then ret tt else
  let lefthook_path :=
    if _file_exists ".lefthook.yml" then Some ".lefthook.yml"
    else if _file_exists "lefthook.yml" then Some "lefthook.yml"
    else None in
  add_result (mkValidationResult "hooks" "lefthook_config_exists"
    (match lefthook_path with Some _ => true | None => false end)
    "critical" "lefthook.yml configuration file"
    (Some match lefthook_path with
          | None => "Not found"
          | Some p => "Found: " ++ p
          end)) ;;
  match lefthook_path with
  | Some p =>
      for_each (pre_commit_commands (hooks cfg)) (fun cmd =>
        has_cmd <- _check_file_contains p (cmd ++ ":") ;;
        add_result (mkValidationResult "hooks" ("pre_commit_" ++ cmd)
          has_cmd "warning" ("Pre-commit hook: " ++ cmd)
          (Some (if has_cmd then "Configured" else "Missing")))) ;;
      for_each (pre_push_commands (hooks cfg)) (fun cmd =>
        has_cmd <- _check_file_contains p (cmd ++ ":") ;;
        add_result (mkValidationResult "hooks" ("pre_push_" ++ cmd)
          has_cmd "warning" ("Pre-push hook: " ++ cmd)
          (Some (if has_cmd then "Configured" else "Missing"))))
  | None => ret tt
  end ;;
  let claude_settings := _file_exists ".claude/settings.json" in
  add_result (mkValidationResult "hooks" "claude_settings_exists"
    claude_settings "warning" "Claude Code settings.json"
    (Some (if claude_settings then "Found" else "Not found"))).

(** *** Documentation *)

Definition validate_documentation : M unit :=
  let dc := documentation cfg in
  if negb (documentation_enabled dc) then ret tt else
  let claude_md_exists := _file_exists "CLAUDE.md" in
  add_result (mkValidationResult "documentation" "claude_md_exists"
    claude_md_exists "critical" "CLAUDE.md file exists"
    (Some (if claude_md_exists then "Found" else "Not found"))) ;;
  when claude_md_exists (
    claude_content <- _read_file "CLAUDE.md" ;;
    for_each (required_claude_sections dc) (fun section =>
      has_section <- contains_opt ("## " ++ section) claude_content ;;
      add_result (mkValidationResult "documentation"
        ("claude_section_" ++ PyStr.replace " " "_" (PyStr.lower section))
        has_section "warning" ("CLAUDE.md section: " ++ section)
        (Some (if has_section then "Present" else "Missing"))))) ;;
  let wip_dir := wip_directory dc in
  add_result (mkValidationResult "documentation" "wip_directory_exists"
    (_file_exists wip_dir) "info" ("WIP directory: " ++ wip_dir)
    (Some "Recommended but not required")) ;;
  let root_md_files :=
    filter (fun f => PyStr.endswith f ".md"
                     && negb (PyStr.mem f (allowed_root_files dc)))
           (map fst root) in
  let has_forbidden := (0 <? List.length root_md_files)%nat in
  add_result (mkValidationResult "documentation" "no_forbidden_root_md"
    (negb has_forbidden) "critical" "No forbidden root .md files"
    (Some (if has_forbidden
           then "Found: " ++ PyStr.join ", " root_md_files
           else "Clean"))).

(** *** Testing *)

(** [if package_json:] is false for [None] and for the empty text. *)
Definition truthy (content : option string) : option string :=
  match content with
  | Some EmptyString => None
  | other => other
  end.

Definition validate_testing : M unit :=
  let tc := testing cfg in
  if negb (testing_enabled tc) then ret tt else
  let vitest_config := vitest tc in
  when (vitest_required vitest_config) (
    let vitest_path :=
      first_existing [vitest_config_file vitest_config;
                      "apps/web/vitest.config.ts";
                      "apps/web/vitest.config.js"] in
    add_result (mkValidationResult "testing" "vitest_config_exists"
      (match vitest_path with Some _ => true | None => false end)
      "critical" "Vitest configuration file"
      (Some match vitest_path with
            | None => "Not found"
            | Some p => "Found: " ++ p
            end)) ;;
    match vitest_path with
    | Some p =>
        has_coverage <- _check_file_contains p "thresholds" ;;
        add_result (mkValidationResult "testing" "vitest_coverage_configured"
          has_coverage "warning" "Vitest coverage thresholds configured"
          (Some (if has_coverage then "Configured" else "Missing")))
    | None => ret tt
    end ;;
    package_json <- _read_file "package.json" ;;
    match truthy package_json with
    | Some text =>
        for_each (required_scripts vitest_config) (fun script =>
          let has_script := PyStr.contains script text in
          add_result (mkValidationResult "testing"
            ("test_script_" ++ PyStr.replace ":" "_" script)
            has_script "warning" ("Test script: " ++ script)
            (Some (if has_script then "Present" else "Missing"))))
    | None => ret tt
    end) ;;
  let playwright_config := playwright tc in
  when (required_for_web playwright_config) (
    when (_file_exists "next.config.js" || _file_exists "next.config.mjs") (
      let playwright_exists :=
        _file_exists (playwright_config_file playwright_config) in
      add_result (mkValidationResult "testing" "playwright_config_exists"
        playwright_exists "info" "Playwright E2E testing configured"
        (Some "Recommended for web projects")))).

(** *** Quality gates *)

Definition validate_quality_gates : M unit :=
  let qc := quality_gates cfg in
  if negb (quality_gates_enabled qc) then ret tt else
  let eslint_config := eslint qc in
  when (tool_required eslint_config) (
    let eslint_path :=
      first_existing [tool_config_file eslint_config;
                      ".eslintrc.json"; ".eslintrc.js"; "eslint.config.js";
                      "apps/web/eslint.config.mjs";
                      "apps/web/.eslintrc.json"] in
    add_result (mkValidationResult "quality_gates" "eslint_config_exists"
      (match eslint_path with Some _ => true | None => false end)
      "critical" "ESLint configuration file"
      (Some match eslint_path with
            | None => "Not found"
            | Some p => "Found: " ++ p
            end))) ;;
  let ts_config := typescript qc in
  when (tool_required ts_config) (
    let ts_exists := _file_exists (tool_config_file ts_config) in
    add_result (mkValidationResult "quality_gates" "typescript_config_exists"
      ts_exists "critical" "TypeScript configuration file"
      (Some (if ts_exists then "Found" else "Not found"))) ;;
    when ts_exists (
      has_strict <- _check_file_contains (tool_config_file ts_config)
                      (PyStr.dquote ++ "strict" ++ PyStr.dquote ++ ": true") ;;
      add_result (mkValidationResult "quality_gates" "typescript_strict_mode"
        has_strict "warning" "TypeScript strict mode enabled"
        (Some (if has_strict then "Enabled" else "Not enabled"))))) ;;
  let prettier_config := prettier qc in
  when (tool_required prettier_config) (
    let prettier_exists := _file_exists (tool_config_file prettier_config) in
    add_result (mkValidationResult "quality_gates" "prettier_config_exists"
      prettier_exists "warning" "Prettier configuration file"
      (Some (if prettier_exists then "Found" else "Not found")))) ;;
  let qs := quality_script qc in
  when (quality_script_required qs) (
    package_json <- _read_file "package.json" ;;
    match truthy package_json with
    | Some text =>
        let has_quality := PyStr.contains (quality_script_name qs) text in
        add_result (mkValidationResult "quality_gates" "quality_script_exists"
          has_quality "warning" "Quality script in package.json"
          (Some (if has_quality then "Present" else "Missing")))
    | None => ret tt
    end).

(** *** Git *)

Definition validate_git : M unit :=
  if negb (git_enabled (git cfg)) then ret tt else
  let gitignore_exists := _file_exists ".gitignore" in
  add_result (mkValidationResult "git" "gitignore_exists"
    gitignore_exists "critical" ".gitignore file exists"
    (Some (if gitignore_exists then "Found" else "Not found"))) ;;
  when gitignore_exists (
    gitignore_content <- _read_file ".gitignore" ;;
    for_each (gitignore_must_include (git cfg)) (fun entry =>
      let entry_base := PyStr.rstrip "/" entry in
      has_entry <-
        (in_entry <- contains_opt entry gitignore_content ;;
         if in_entry then ret true
         else contains_opt entry_base gitignore_content) ;;
      add_result (mkValidationResult "git"
        ("gitignore_has_"
           ++ PyStr.replace "." "_" (PyStr.replace "/" "_" entry))
        has_entry "info" (".gitignore includes " ++ entry)
        (Some (if has_entry then "Present" else "Missing"))))).

(** *** Security *)

Definition dangerous_patterns : list (string * string) :=
  [("sk_live_", "Stripe live key");
   ("pk_live_", "Stripe live publishable key");
   ("AKIA", "AWS access key")].

(** The loop over [dangerous_patterns] for one file: it records the first
    pattern found in [content] and breaks. *)
Fixpoint scan_patterns (patterns : list (string * string))
    (file_path : path) (content : string) : M unit :=
  match patterns with
  | [] => ret tt
  | (pattern, nm) :: rest =>
      if PyStr.contains pattern content then
        add_result (mkValidationResult "security" "no_hardcoded_secrets"
          false "critical" ("Potential " ++ nm ++ " hardcoded")
          (Some ("Found in " ++ path_str file_path)))
      else scan_patterns rest file_path content
  end.

(** The body of [for dir_name in source_dirs]. *)
Definition scan_source_dir (dir_name : string) : M unit :=
  match lookup (parts dir_name) (Dir root) with
  | Some (Dir es) =>
      for_each (rglob "*.{ts,tsx,js,jsx}" (parts dir_name) (Dir es))
        (fun f =>
           content <- do_read true (fst f) (snd f) ;;
           scan_patterns dangerous_patterns (fst f) content)
  | _ => ret tt
  end.

Definition validate_security : M unit :=
  if negb (security_enabled (security cfg)) then ret tt else
  let env_example := env_example_file_name (security cfg) in
  let env_example_exists := _file_exists env_example in
  add_result (mkValidationResult "security" "env_example_exists"
    env_example_exists "warning" (env_example ++ " file exists")
    (Some (if env_example_exists then "Found"
           else "Not found (recommended)"))) ;;
  for_each ["app"; "src"; "lib"; "pages"; "components"] scan_source_dir.

(** *** Naming conventions *)

(** The files of one source directory whose stem ends with a forbidden
    suffix, as relative paths. *)
Definition suffixed_files_in (dir_name : string) : list string :=
  match lookup (parts dir_name) (Dir root) with
  | Some (Dir es) =>
      map (fun f => path_str (fst f))
        (filter (fun f =>
                   is_file (snd f) &&
                   existsb (PyStr.endswith (stem (path_name (fst f))))
                           (forbidden_suffixes (naming_conventions cfg)))
                (rglob "*" (parts dir_name) (Dir es)))
  | _ => []
  end.

Definition validate_naming_conventions : M unit :=
  if negb (naming_enabled (naming_conventions cfg)) then ret tt else
  let files_with_suffixes :=
    flat_map suffixed_files_in
      ["app"; "src"; "lib"; "pages"; "components"; "packages"] in
  let n := List.length files_with_suffixes in
  let has_forbidden_suffixes := (0 <? n)%nat in
  add_result (mkValidationResult "naming_conventions" "no_version_suffixes"
    (negb has_forbidden_suffixes) "critical"
    "No version/enhancement suffixes in filenames"
    (Some (if has_forbidden_suffixes
           then "Found " ++ PyStr.str_of_nat n ++ " files: "
                ++ PyStr.join ", " (firstn 3 files_with_suffixes)
                ++ (if (3 <? n)%nat then "..." else "")
           else "Clean"))).

(** *** Migrations *)

(** The [issues] list of one migration file. *)
Definition migration_issues (content : string) : list string :=
  ((if PyStr.contains "CREATE POLICY" content
       && negb (PyStr.contains "DO $$" content)
    then ["CREATE POLICY without DO $$ block"] else [])
   ++ (if PyStr.contains "CREATE TRIGGER" content
          && negb (PyStr.contains "DROP TRIGGER IF EXISTS" content)
       then ["CREATE TRIGGER without DROP IF EXISTS"] else [])
   ++ (if PyStr.contains "ADD CONSTRAINT" content
          && negb (PyStr.contains "DO $$" content)
       then ["ADD CONSTRAINT without idempotency check"] else []))%list.

(** The loop [for migration_file in migrations_path.glob('*.sql')],
    returning [non_idempotent_files]. *)
Fixpoint scan_migrations (files : list (path * node)) : M (list string) :=
  match files with
  | [] => ret []
  | (p, n) :: rest =>
      content <- do_read false p n ;;
      let issues := migration_issues content in
      more <- scan_migrations rest ;;
      ret (match issues with
           | [] => more
           | _ => (path_name p ++ ": " ++ PyStr.join ", " issues) :: more
           end)
  end.

Definition validate_migrations : M unit :=
  if negb (enabled_for_supabase (migrations cfg)) then ret tt else
  let migrations_dir :=
    if _file_exists "supabase/migrations" then "supabase/migrations"
    else "apps/web/supabase/migrations" in
  match lookup (parts migrations_dir) (Dir root) with
  | None => ret tt
  | Some n =>
      non_idempotent_files <-
        scan_migrations (glob "*.sql" (parts migrations_dir) n) ;;
      let k := List.length non_idempotent_files in
      let has_issues := (0 <? k)%nat in
      add_result (mkValidationResult "migrations" "migrations_idempotent"
        (negb has_issues) "critical" "All migrations are idempotent"
        (Some (if has_issues
               then "Issues in " ++ PyStr.str_of_nat k ++ " files: "
                    ++ PyStr.join "; " (firstn 2 non_idempotent_files)
                    ++ (if (2 <? k)%nat then "..." else "")
               else "All idempotent")))
  end.

(** *** The run *)

Definition run_evaluators : M unit :=
  validate_hooks ;;
  validate_documentation ;;
  validate_testing ;;
  validate_quality_gates ;;
  validate_git ;;
  validate_security ;;
  validate_naming_conventions ;;
  validate_migrations.

(** [validate_all]: returns [(overall_score, grade)] and leaves the scored
    categories in [self.results]. *)
Definition validate_all : M (pynum * string) :=
  run_evaluators ;;
  fun s =>
    let (d, r) := calculate cfg (st_results s) in
    (r, mkState d (st_reads s)).

End Validator.

(** A fresh [ComplianceValidator]: no results yet. *)
Definition initial_state : state := mkState [] [].

(** [export_json]: the report handed to the emitters. *)
Record check_json : Type := {
  j_check : string;
  j_passed : bool;
  j_severity : string;
  j_message : string;
  j_details : option string
}.

Record category_json : Type := {
  j_score : float;
  j_weight : Z;
  j_checks_passed : Z;
  j_checks_failed : Z;
  j_checks_warned : Z;
  j_results : list check_json
}.

Record report_json : Type := {
  j_overall_score : pynum;
  j_grade : string;
  j_categories : list (string * category_json)
}.

Definition export_json (d : results_dict) (score_ : pynum) (grade : string)
    : report_json :=
  {| j_overall_score := score_;
     j_grade := grade;
     j_categories :=
       map (fun e =>
              let cat := snd e in
              (fst e,
               {| j_score := score cat;
                  j_weight := weight cat;
                  j_checks_passed := checks_passed cat;
                  j_checks_failed := checks_failed cat;
                  j_checks_warned := checks_warned cat;
                  j_results :=
                    map (fun r =>
                           {| j_check := check_name r;
                              j_passed := passed r;
                              j_severity := severity r;
                              j_message := message r;
                              j_details := details r |})
                        (results cat) |}))
           d |}.

(** [main] with [--report-format json]: the report, when the run ends. *)
Definition run_report (cfg : config) (root : listing) : result report_json :=
  match validate_all cfg root initial_state with
  | (Ok (overall_score, grade), s) =>
      Ok (export_json (st_results s) overall_score grade)
  | (Raise e, _) => Raise e
  end.

(** The exit code of [main]. *)
Definition exit_status (overall_score : pynum) : Z :=
  if ge overall_score (PyInt 95) then 0
  else if ge overall_score (PyInt 70) then 1
  else 2.

(* ================================================================= *)
(** ** Vocabulary of the statements *)

(** The float nearest to an integer, and whether CPython converts it. *)
Definition nearest (n : Z) : float := round_to_float n 0.

Definition converts (n : Z) : bool := is_finite (nearest n).

(** A category takes part in the overall score when it has an outcome. *)
Definition included (c : CategoryResult) : bool := total_checks c >? 0.

(** The formula of the specification,
    [((checks_passed + 0.5 * checks_warned) / total) * 100], in binary64. *)
Definition score_formula (n_passed n_warned n_total : Z) : float :=
  fmul (fdiv (fadd (nearest n_passed) (fmul f0_5 (nearest n_warned)))
             (nearest n_total))
       f100.

(** Sum of floats, left to right from [0.0]. *)
Definition fsum (l : list float) : float := fold_left fadd l f0.

Definition zsum (l : list Z) : Z := fold_right Z.add 0 l.

Definition included_categories (d : results_dict) : list CategoryResult :=
  filter included (map snd d).

(** The weighted mean of the specification over scored categories:
    [sum (score * weight) / sum weight], and [0] for a zero weight sum. *)
Definition weighted_mean (cs : list CategoryResult) : pynum :=
  let w := zsum (map weight cs) in
  if w =? 0 then PyInt 0
  else PyFloat
         (fdiv (fsum (map (fun c => fmul (score c) (nearest (weight c))) cs))
               (nearest w)).

(** No conversion of the scoring loop overflows. *)
Definition category_converts (c : CategoryResult) : bool :=
  converts (checks_passed c) && converts (checks_warned c)
  && converts (total_checks c) && converts (weight c).

Definition conversions_ok (d : results_dict) : bool :=
  forallb category_converts (included_categories d)
  && (let w := zsum (map weight (included_categories d)) in
      negb (w >? 0) || converts w).

(** A category with its score stored, as the loop leaves it. *)
Definition scored (c : CategoryResult) : CategoryResult :=
  if included c
  then set_score c (score_formula (checks_passed c) (checks_warned c)
                                  (total_checks c))
  else c.

Definition scored_dict (d : results_dict) : results_dict :=
  map (fun e => (fst e, scored (snd e))) d.

(** The weighted scores the loop adds up, in iteration order. *)
Definition weighted_scores (d : results_dict) : list float :=
  map (fun c => fmul (score c) (nearest (weight c)))
      (included_categories (scored_dict d)).

(** [overall_score] as the loop's sums give it: the quotient when the
    weight sum is positive, the [int] [0] otherwise. *)
Definition overall_score_of (d : results_dict) : pynum :=
  let w := zsum (map weight (included_categories d)) in
  if w >? 0 then PyFloat (fdiv (fsum (weighted_scores d)) (nearest w))
  else PyInt 0.

(** Tallies of a list of outcomes. *)
Definition is_critical (r : ValidationResult) : bool :=
  String.eqb (severity r) "critical".

Definition count (f : ValidationResult -> bool) (rs : list ValidationResult) : Z :=
  Z.of_nat (List.length (filter f rs)).

Definition of_category (k : string) (r : ValidationResult) : bool :=
  String.eqb (category r) k.

(** All outcomes of one category, tallied onto a starting category. *)
Definition tally_all (rs : list ValidationResult) (c : CategoryResult)
    : CategoryResult :=
  fold_left (fun acc r => tally r acc) rs c.

(** The last character of a string. *)
Fixpoint last_char (s : string) : option ascii :=
  match s with
  | EmptyString => None
  | String c s' =>
      match last_char s' with
      | Some d => Some d
      | None => Some c
      end
  end.

(** A pattern without [*] and [?]. *)
Fixpoint no_wildcard (pat : string) : bool :=
  match pat with
  | EmptyString => true
  | String c pat' =>
      negb (Ascii.eqb c "*") && negb (Ascii.eqb c "?") && no_wildcard pat'
  end.

(** The suffix that the pattern of the secret scan asks of a name. *)
Definition secret_scan_suffix : string := ".{ts,tsx,js,jsx}".

(** A path with one of the four source extensions. *)
Definition ordinary_source_file (p : string) : bool :=
  PyStr.endswith p ".ts" || PyStr.endswith p ".tsx"
  || PyStr.endswith p ".js" || PyStr.endswith p ".jsx".

(** Whether the configuration enables the evaluator of a category. *)
Definition category_enabled (cfg : config) (k : string) : bool :=
  if String.eqb k "hooks" then hooks_enabled (hooks cfg)
  else if String.eqb k "documentation"
       then documentation_enabled (documentation cfg)
  else if String.eqb k "testing" then testing_enabled (testing cfg)
  else if String.eqb k "quality_gates"
       then quality_gates_enabled (quality_gates cfg)
  else if String.eqb k "git" then git_enabled (git cfg)
  else if String.eqb k "security" then security_enabled (security cfg)
  else if String.eqb k "naming_conventions"
       then naming_enabled (naming_conventions cfg)
  else if String.eqb k "migrations"
       then enabled_for_supabase (migrations cfg)
  else false.

(** A category with another weight. *)
Definition with_weight (c : CategoryResult) (w : Z) : CategoryResult :=
  mkCategoryResult (name c) w (checks_passed c) (checks_failed c)
    (checks_warned c) (score c) (results c).

(** The configuration with another category-weight table. *)
Definition with_validation_categories (vc : list (string * option Z))
    (cfg : config) : config :=
  {| validation_categories := vc;
     compliance_grading := compliance_grading cfg;
     hooks := hooks cfg;
     documentation := documentation cfg;
     testing := testing cfg;
     quality_gates := quality_gates cfg;
     git := git cfg;
     security := security cfg;
     naming_conventions := naming_conventions cfg;
     migrations := migrations cfg |}.

(** The category in which the category of [r] stands before [r] is
    recorded: the stored one, or the one [_add_result] creates. *)
Definition category_before (cfg : config) (r : ValidationResult)
    (d : results_dict) : CategoryResult :=
  match dict_get (category r) d with
  | Some c => c
  | None => new_CategoryResult (category r) (configured_weight cfg (category r))
  end.

(** The state after recording the outcomes [rs] and reading the paths [ps]. *)
Definition after (c : config) (s : state) (rs : list ValidationResult)
    (ps : list string) : state :=
  mkState (record_all c rs (st_results s)) (st_reads s ++ ps).

(** Two runs of a command, one under [cfg] and one under [cfg] with the
    weight table [vc], from any two states: both end the same way (the same
    value or the same exception), having recorded the same outcomes (all in
    [P]) and read the same paths (all in [Q]). *)
Definition related (cfg : config) (vc : list (string * option Z))
    (P : ValidationResult -> Prop) (Q : string -> Prop)
    {A : Type} (m m' : M A) : Prop :=
  forall s s',
    fst (m s) = fst (m' s') /\
    exists rs ps,
      Forall P rs /\ Forall Q ps /\
      snd (m s) = after cfg s rs ps /\
      snd (m' s') = after (with_validation_categories vc cfg) s' rs ps.

(** A path the secret scan may read. *)
Definition scanned_path (p : string) : Prop :=
  PyStr.endswith p secret_scan_suffix = true.

(** What the security evaluator may record: outcomes of its category, and
    as [no_hardcoded_secrets] only failing critical ones that name a
    scanned path. *)
Definition security_outcome (cfg : config) (r : ValidationResult) : Prop :=
  category r = "security" /\
  security_enabled (security cfg) = true /\
  (check_name r = "no_hardcoded_secrets" ->
   passed r = false /\ severity r = "critical" /\
   exists p, details r = Some ("Found in " ++ p)%string /\ scanned_path p).

(* ================================================================= *)
(** ** Example inputs *)

Definition example_config : config :=
  {| validation_categories :=
       [("hooks", Some 15); ("documentation", Some 15); ("testing", Some 20);
        ("quality_gates", Some 15); ("git", Some 10); ("security", Some 15);
        ("naming_conventions", Some 5); ("migrations", Some 5)];
     compliance_grading :=
       [("A", PyInt 95); ("B", PyInt 80); ("C", PyInt 60)];
     hooks :=
       {| hooks_enabled := true;
          pre_commit_commands := ["lint"; "typecheck"];
          pre_push_commands := ["test"] |};
     documentation :=
       {| documentation_enabled := true;
          required_claude_sections := ["Project Overview"];
          wip_directory := "docs/wip";
          guides_directory := "docs/guides";
          architecture_directory := "docs/architecture";
          allowed_root_files := ["README.md"; "CLAUDE.md"] |};
     testing :=
       {| testing_enabled := true;
          vitest :=
            {| vitest_required := true;
               vitest_config_file := "vitest.config.ts";
               required_scripts := ["test"; "test:coverage"] |};
          playwright :=
            {| required_for_web := true;
               playwright_config_file := "playwright.config.ts" |} |};
     quality_gates :=
       {| quality_gates_enabled := true;
          eslint := {| tool_required := true;
                       tool_config_file := "eslint.config.mjs" |};
          typescript := {| tool_required := true;
                           tool_config_file := "tsconfig.json" |};
          prettier := {| tool_required := true;
                         tool_config_file := ".prettierrc" |};
          quality_script := {| quality_script_required := true;
                               quality_script_name := "quality" |} |};
     git := {| git_enabled := true;
               gitignore_must_include := ["node_modules/"; ".env.local"] |};
     security := {| security_enabled := true;
                    env_example_file_name := ".env.local.example" |};
     naming_conventions :=
       {| naming_enabled := true;
          forbidden_suffixes := ["_v2"; "_new"; "_enhanced"] |};
     migrations := {| enabled_for_supabase := true |} |}.

(** The same rules with an empty category-weight table. *)
Definition config_without_weights : config :=
  with_validation_categories [] example_config.

(** A category with [passed=3, warned=2, failed=1]. *)
Definition category_3_2_1 : CategoryResult :=
  mkCategoryResult "hooks" 15 3 1 2 f0 [].

(** Two categories with weights 70 and 30 whose tallies score 80 and 50. *)
Definition two_categories : results_dict :=
  [("hooks", mkCategoryResult "hooks" 70 4 1 0 f0 []);
   ("git", mkCategoryResult "git" 30 1 1 0 f0 [])].

(** The grade bands of the specification's example. *)
Definition example_bands : list (string * pynum) :=
  [("A", PyInt 95); ("B", PyInt 80); ("C", PyInt 60)].

(** A project with two files that the secret scan reads, each holding a
    live key, next to an ordinary TypeScript file holding one too. *)
Definition project_two_secret_files : listing :=
  [(".gitignore", File (Text "node_modules .env.local"));
   ("src",
    Dir [("keys.{ts,tsx,js,jsx}", File (Text "const k = 'sk_live_abc';"));
         ("config.ts", File (Text "const k = 'sk_live_abc';"));
         ("lib",
          Dir [("aws.{ts,tsx,js,jsx}", File (Text "AKIAIOSFODNN7"))])])].

(** A project whose only migration cannot be decoded. *)
Definition project_garbled_migration : listing :=
  [("supabase",
    Dir [("migrations",
          Dir [("001_init.sql", File (Garbled "CREATE TABLE t"))])])].

(** The same project with the migration readable. *)
Definition project_readable_migration : listing :=
  [("supabase",
    Dir [("migrations",
          Dir [("001_init.sql", File (Text "CREATE TABLE t"))])])].

(** A project whose scanned source file cannot be opened. *)
Definition project_locked_source : listing :=
  [("src", Dir [("keys.{ts,tsx,js,jsx}", File Locked)])].

(** A project whose [CLAUDE.md] cannot be opened. *)
Definition project_locked_claude_md : listing :=
  [("CLAUDE.md", File Locked)].

(** The example rules with the weight of [migrations] set to 50. *)
Definition reweighted_migrations : list (string * option Z) :=
  ("migrations", Some 50) :: validation_categories example_config.

(** The columns of a report entry that identify an outcome. *)
Definition outcome_summary (j : check_json)
    : string * bool * string * option string :=
  (j_check j, j_passed j, j_severity j, j_details j).

(** The outcome the security evaluator records first when the example
    environment file is missing. *)
Definition missing_env_example : ValidationResult :=
  mkValidationResult "security" "env_example_exists" false "warning"
    ".env.local.example file exists" (Some "Not found (recommended)").

(** A project with one ordinary source file holding a live key and one
    file that the secret scan reads. *)
Definition project_ordinary_secret : listing :=
  [("src",
    Dir [("config.ts", File (Text "const k = 'sk_live_abc';"));
         ("keys.{ts,tsx,js,jsx}", File (Text "export {}"))])].

(* ================================================================= *)
(** ** Further vocabulary *)

(** The distinct elements of [l] that are not in [seen], each at its
    first place. *)
Fixpoint first_occurrences (seen l : list string) : list string :=
  match l with
  | [] => []
  | k :: l' =>
      if PyStr.mem k seen then first_occurrences seen l'
      else k :: first_occurrences (seen ++ [k]) l'
  end.

(** The number of outcomes a dictionary holds. *)
Definition outcome_count (d : results_dict) : nat :=
  list_sum (map (fun e => List.length (results (snd e))) d).

(** Bands with integer thresholds, as a configuration lists them. *)
Definition int_bands (bands : list (string * Z)) : list (string * pynum) :=
  map (fun b => (fst b, PyInt (snd b))) bands.

(** Thresholds in descending order. *)
Fixpoint descending (thresholds : list Z) : Prop :=
  match thresholds with
  | [] => True
  | t :: rest => Forall (fun u => u <= t) rest /\ descending rest
  end.

(** A category with its score put back to the constructor's [0.0]. *)
Definition without_score (c : CategoryResult) : CategoryResult :=
  set_score c f0.

(** The bands A 95, B 80, C 60 with integer thresholds. *)
Definition example_int_bands : list (string * Z) :=
  [("A", 95); ("B", 80); ("C", 60)].

(** The text of the readable, decodable file at a path, if there is one. *)
Definition readable_text (root : listing) (p : string) : option string :=
  match lookup (parts p) (Dir root) with
  | Some (File (Text t)) => Some t
  | _ => None
  end.

(** The read that [_read_file] logs for a path: one when the path exists. *)
Definition read_log (root : listing) (p : string) : list string :=
  if _file_exists root p then [path_str (parts p)] else [].

(** Whether the readable text at a path contains a pattern. *)
Definition text_contains (root : listing) (p pattern : string) : bool :=
  match readable_text root p with
  | Some t => PyStr.contains pattern t
  | None => false
  end.

(** From every state, the command ends with [r], having recorded the
    outcomes [rs] and read the paths [ps]. *)
Definition yields (cfg : config) {A : Type} (m : M A) (r : result A)
    (rs : list ValidationResult) (ps : list string) : Prop :=
  forall s, m s = (r, after cfg s rs ps).

(** A path that exists but whose text cannot be had: a directory, or a
    file that cannot be opened or decoded. *)
Definition unreadable (root : listing) (p : string) : bool :=
  _file_exists root p &&
  match readable_text root p with Some _ => false | None => true end.

(** A list that holds something. *)
Definition nonempty {A : Type} (l : list A) : bool :=
  match l with [] => false | _ :: _ => true end.

(** The migrations directory that [validate_migrations] settles on: the
    default one, or the one of a monorepo when the default is missing. *)
Definition migrations_dir (root : listing) : string :=
  if _file_exists root "supabase/migrations" then "supabase/migrations"
  else "apps/web/supabase/migrations".











(** The categories in the order in which [validate_all] runs their
    evaluators. *)
Definition evaluation_order : list string :=
  ["hooks"; "documentation"; "testing"; "quality_gates"; "git"; "security";
   "naming_conventions"; "migrations"].

(** Outcomes that come in consecutive blocks, one block (possibly empty)
    for each category of [ks], in the order of [ks]. *)
Fixpoint in_blocks (ks : list string) (rs : list ValidationResult) : Prop :=
  match ks with
  | [] => rs = []
  | k :: ks' =>
      exists rs1 rs2,
        rs = rs1 ++ rs2 /\
        Forall (fun r => category r = k) rs1 /\ in_blocks ks' rs2
  end.

(** Whatever way the command ends, what it recorded comes in the blocks
    [ks], from enabled categories. *)
Definition records_blocks (cfg : config) (ks : list string) {A : Type}
    (m : M A) : Prop :=
  forall s, exists rs ps,
    snd (m s) = after cfg s rs ps /\ in_blocks ks rs /\
    Forall (fun r => category_enabled cfg (category r) = true) rs.

(** The example rules with every evaluator switched off. *)
Definition disabled_config : config :=
  {| validation_categories := validation_categories example_config;
     compliance_grading := compliance_grading example_config;
     hooks :=
       {| hooks_enabled := false;
          pre_commit_commands := pre_commit_commands (hooks example_config);
          pre_push_commands := pre_push_commands (hooks example_config) |};
     documentation :=
       {| documentation_enabled := false;
          required_claude_sections := ["Project Overview"];
          wip_directory := "docs/wip";
          guides_directory := "docs/guides";
          architecture_directory := "docs/architecture";
          allowed_root_files := ["README.md"; "CLAUDE.md"] |};
     testing :=
       {| testing_enabled := false;
          vitest := vitest (testing example_config);
          playwright := playwright (testing example_config) |};
     quality_gates :=
       {| quality_gates_enabled := false;
          eslint := eslint (quality_gates example_config);
          typescript := typescript (quality_gates example_config);
          prettier := prettier (quality_gates example_config);
          quality_script := quality_script (quality_gates example_config) |};
     git := {| git_enabled := false;
               gitignore_must_include := ["node_modules/"; ".env.local"] |};
     security := {| security_enabled := false;
                    env_example_file_name := ".env.local.example" |};
     naming_conventions :=
       {| naming_enabled := false;
          forbidden_suffixes := ["_v2"; "_new"; "_enhanced"] |};
     migrations := {| enabled_for_supabase := false |} |}.

(** One passing outcome of [hooks], recorded under a weight table that
    gives [hooks] the weight 0. *)
Definition passed_with_weight_zero : results_dict :=
  record_all (with_validation_categories [("hooks", Some 0)] example_config)
    [mkValidationResult "hooks" "lefthook_config_exists" true "critical"
       "lefthook.yml configuration file" (Some "Found: lefthook.yml")]
    [].

(* ================================================================= *)
(** ** The reports ([print_results] and [generate-report.py]) *)

(** The three status texts of a category line: a check mark ([Pass]), a
    cross ([Fail]) and a warning sign ([Warning]). *)
Inductive status_mark : Type :=
| mark_pass
| mark_fail
| mark_warning.

(** [A if checks_failed == 0 else B if checks_failed > 0 else C]: the
    status of [print_results] and of the markdown matrix. *)
Definition status (c : CategoryResult) : status_mark :=
  if checks_failed c =? 0 then mark_pass
  else if checks_failed c >? 0 then mark_fail
  else mark_warning.

(** [not r.passed and r.severity == sev] *)
Definition failing_with (sev : string) (r : ValidationResult) : bool :=
  negb (passed r) && String.eqb (severity r) sev.

(** [[(cat_name, r) for cat_name, cat in self.results.items()
      for r in cat.results if not r.passed and r.severity == sev]] *)
Definition failures_with (sev : string) (d : results_dict)
    : list (string * ValidationResult) :=
  flat_map (fun e => map (fun r => (fst e, r))
                         (filter (failing_with sev) (results (snd e)))) d.

Definition critical_failures (d : results_dict)
    : list (string * ValidationResult) :=
  failures_with "critical" d.

Definition warnings (d : results_dict) : list (string * ValidationResult) :=
  failures_with "warning" d.

(** The sums of the executive summary. *)
Definition total_passed (d : results_dict) : Z :=
  zsum (map (fun e => checks_passed (snd e)) d).

Definition total_failed (d : results_dict) : Z :=
  zsum (map (fun e => checks_failed (snd e)) d).

Definition total_warned (d : results_dict) : Z :=
  zsum (map (fun e => checks_warned (snd e)) d).

Definition total_of_checks (d : results_dict) : Z :=
  zsum (map (fun e => total_checks (snd e)) d).

(** The warnings that the markdown report lists ([warnings[:10]]) and the
    number it announces after them, if any. *)
Definition listed_warnings (d : results_dict)
    : list (string * ValidationResult) :=
  firstn 10 (warnings d).

Definition more_warnings (d : results_dict) : option nat :=
  if (10 <? List.length (warnings d))%nat
  then Some (List.length (warnings d) - 10)%nat
  else None.

(** The critical issues that [print_results] lists
    ([critical_failures[:5]]) and the number it announces after them. *)
Definition listed_critical (d : results_dict) : list ValidationResult :=
  firstn 5 (map snd (critical_failures d)).

Definition more_critical (d : results_dict) : option nat :=
  if (5 <? List.length (critical_failures d))%nat
  then Some (List.length (critical_failures d) - 5)%nat
  else None.

(** [f < n], exact. *)
Definition float_lt_int (f : float) (n : Z) : bool :=
  match f with
  | S754_nan => false
  | S754_infinity s => s
  | S754_zero _ => 0 <? n
  | S754_finite s m e =>
      if 0 <=? e then signed s m * 2 ^ e <? n
      else signed s m <? n * 2 ^ (- e)
  end.

(** Python's [a < n] for an [int] literal [n]. *)
Definition lt_int (a : pynum) (n : Z) : bool :=
  match a with
  | PyInt x => x <? n
  | PyFloat f => float_lt_int f n
  end.

Definition is_nan (a : pynum) : bool :=
  match a with
  | PyFloat S754_nan => true
  | _ => false
  end.

(** The three alternatives of the section [Next Steps]. *)
Inductive next_steps_advice : Type :=
| address_critical_failures
| address_remaining_warnings
| maintain_current_standards.

Definition next_steps (score_ : pynum) : next_steps_advice :=
  if lt_int score_ 70 then address_critical_failures
  else if lt_int score_ 95 then address_remaining_warnings
  else maintain_current_standards.

(** A category whose counters are the tallies of its outcomes. *)
Definition tallied (c : CategoryResult) : Prop :=
  checks_passed c = count passed (results c) /\
  checks_failed c = count (failing_with "critical") (results c) /\
  checks_warned c
  = count (fun r => negb (passed r) && negb (is_critical r)) (results c).

(** A failing outcome that is neither critical nor a warning. *)
Definition failing_other (r : ValidationResult) : bool :=
  negb (passed r) && negb (is_critical r)
  && negb (String.eqb (severity r) "warning").

(** Whether [self.config['compliance_grading'][grade]], which the text,
    markdown and HTML reports evaluate for the description of the grade,
    finds an entry; without one the lookup raises [KeyError]. *)
Definition grade_entry_exists (cfg : config) (grade : string) : bool :=
  dict_mem grade (compliance_grading cfg).

(** Two categories that score 80 and 50 with the weights -30 and 10, which
    sum to -20. *)
Definition negative_weight_categories : results_dict :=
  [("hooks", mkCategoryResult "hooks" (-30) 4 1 0 f0 []);
   ("git", mkCategoryResult "git" 10 1 1 0 f0 [])].

(** [self.config['validation_categories'].get(category, {}).get('weight', 10)]
    with the table itself optional: a configuration without the key
    ['validation_categories'] makes the subscript raise [KeyError], which
    is the [None] here. The record [config] holds the configurations that
    have the table, and for them this is [configured_weight]. *)
Definition weight_lookup (table : option (list (string * option Z)))
    (cat : string) : option Z :=
  match table with
  | None => None
  | Some vc =>
      Some match dict_get cat vc with
           | Some (Some w) => w
           | Some None => 10
           | None => 10
           end
  end.

(* ================================================================= *)
(** ** Configured paths and texts within the reach of the model *)






(** [main] with [--report-format json] and no [--output]: the report it
    prints and the status it exits with, when the run ends. *)
Definition main_json (cfg : config) (root : listing)
    : result (report_json * Z) :=
  match validate_all cfg root initial_state with
  | (Ok (overall_score, grade), s) =>
      Ok (export_json (st_results s) overall_score grade,
          exit_status overall_score)
  | (Raise e, _) => Raise e
  end.


(* ================================================================= *)
(** * Properties *)

(** ** The helpers on small inputs *)

Example glob_match_examples :
  glob_match "*.{ts,tsx,js,jsx}" "app.ts" = false /\
  glob_match "*.{ts,tsx,js,jsx}" "app.{ts,tsx,js,jsx}" = true /\
  glob_match "*.sql" "001_init.sql" = true /\
  glob_match "*.sql" "001_init.sql.bak" = false /\
  glob_match "*" ".hidden" = true.
Proof. repeat split. Qed.

Example stem_examples :
  stem "button_v2.tsx" = "button_v2" /\
  stem "archive.tar.gz" = "archive.tar" /\
  stem ".bashrc" = ".bashrc" /\
  stem "notes." = "notes." /\
  stem "Makefile" = "Makefile".
Proof. repeat split. Qed.

Example string_examples :
  PyStr.rstrip "/" "node_modules/" = "node_modules" /\
  PyStr.contains "sk_live_" "key = sk_live_123" = true /\
  PyStr.contains "AKIA" "akia" = false /\
  PyStr.endswith "README.md" ".md" = true /\
  PyStr.replace " " "_" (PyStr.lower "Project Overview") = "project_overview" /\
  PyStr.join ", " ["a"; "b"; "c"] = "a, b, c" /\
  PyStr.str_of_nat 120 = "120" /\
  parts "apps/web/./vitest.config.ts" = ["apps"; "web"; "vitest.config.ts"].
Proof. repeat split. Qed.

Example rglob_example :
  map (fun f => path_str (fst f))
      (rglob "*" ["src"]
         (Dir [("a.ts", File (Text "x"));
               ("lib", Dir [("b.ts", File (Text "y"))]);
               ("c.ts", File (Text "z"))]))
  = ["src/a.ts"; "src/lib"; "src/c.ts"; "src/lib/b.ts"].
Proof. reflexivity. Qed.

Example number_examples :
  float_of_int 100 = Ok f100 /\
  float_of_int (2 ^ 1024) = Raise OverflowError /\
  ge (PyFloat (nearest 82)) (PyInt 80) = true /\
  ge (PyFloat (nearest 82)) (PyInt 95) = false /\
  ge (PyFloat f0_5) (PyInt 1) = false /\
  ge (PyInt 0) (PyInt 0) = true /\
  exit_status (PyFloat (nearest 71)) = 1.
Proof. repeat split. Qed.

(** ** Results and floats *)

Lemma float_of_int_converts (n : Z) :
  float_of_int n = if converts n then Ok (nearest n) else Raise OverflowError.
Proof. reflexivity. Qed.

Lemma fmul_comm (x y : float) : fmul x y = fmul y x.
Proof.
  unfold fmul, SFmul.
  destruct x as [sx|sx| |sx mx ex], y as [sy|sy| |sy my ey];
    try reflexivity; try (now rewrite xorb_comm).
  now rewrite xorb_comm, Pos.mul_comm, Z.add_comm.
Qed.

Lemma category_score_eq (c : CategoryResult) :
  category_score c =
  if converts (checks_passed c) && converts (checks_warned c)
     && converts (total_checks c)
  then Ok (score_formula (checks_passed c) (checks_warned c) (total_checks c))
  else Raise OverflowError.
Proof.
  unfold category_score, score_formula.
  rewrite !float_of_int_converts.
  destruct (converts (checks_warned c)); simpl;
    [|now rewrite andb_false_r].
  destruct (converts (checks_passed c)); simpl; [|reflexivity].
  destruct (converts (total_checks c)); simpl; [|reflexivity].
  now rewrite (fmul_comm (nearest (checks_warned c))).
Qed.

(** ** The dictionary *)

Lemma dict_get_adjust_same {V} (f : V -> V) k (d : list (string * V)) v :
  dict_get k d = Some v -> dict_get k (dict_adjust f k d) = Some (f v).
Proof.
  induction d as [|[k' v'] d IH]; simpl; [discriminate|].
  destruct (String.eqb k k') eqn:E; simpl; rewrite E.
  - now intros [= ->].
  - exact IH.
Qed.

Lemma dict_get_adjust_other {V} (f : V -> V) k k0 (d : list (string * V)) :
  k0 <> k -> dict_get k0 (dict_adjust f k d) = dict_get k0 d.
Proof.
  intros Hne. induction d as [|[k' v'] d IH]; simpl; [reflexivity|].
  destruct (String.eqb k k') eqn:E; simpl.
  - apply String.eqb_eq in E. subst k'.
    apply String.eqb_neq in Hne. now rewrite Hne.
  - now rewrite IH.
Qed.

Lemma dict_get_snoc_absent {V} k (d : list (string * V)) v :
  dict_get k d = None -> dict_get k (d ++ [(k, v)]) = Some v.
Proof.
  induction d as [|[k' v'] d IH]; simpl.
  - now rewrite String.eqb_refl.
  - destruct (String.eqb k k'); [discriminate|exact IH].
Qed.

Lemma dict_get_snoc_other {V} k k0 (d : list (string * V)) v :
  k0 <> k -> dict_get k0 (d ++ [(k, v)]) = dict_get k0 d.
Proof.
  intros Hne. induction d as [|[k' v'] d IH]; simpl.
  - apply String.eqb_neq in Hne. now rewrite Hne.
  - now rewrite IH.
Qed.

Lemma dict_keys_adjust {V} (f : V -> V) k (d : list (string * V)) :
  dict_keys (dict_adjust f k d) = dict_keys d.
Proof.
  unfold dict_keys. induction d as [|[k' v'] d IH]; simpl; [reflexivity|].
  destruct (String.eqb k k'); simpl; [reflexivity|now rewrite IH].
Qed.

Lemma dict_get_In {V} k (d : list (string * V)) v :
  dict_get k d = Some v -> In (k, v) d.
Proof.
  induction d as [|[k' v'] d IH]; simpl; [discriminate|].
  destruct (String.eqb k k') eqn:E.
  - apply String.eqb_eq in E. intros [= ->]. left. now subst.
  - intros H. right. auto.
Qed.

Lemma dict_get_None_keys {V} k (d : list (string * V)) :
  dict_get k d = None <-> ~ In k (dict_keys d).
Proof.
  unfold dict_keys. induction d as [|[k' v'] d IH]; simpl.
  - tauto.
  - destruct (String.eqb k k') eqn:E.
    + apply String.eqb_eq in E. subst. split; [discriminate|tauto].
    + apply String.eqb_neq in E. rewrite IH. split; intros H; [|tauto].
      intros [H1|H1]; [congruence|tauto].
Qed.

(** What [_add_result] stores under the category of the outcome. *)
Lemma add_result_get_same cfg r d :
  dict_get (category r) (_add_result cfg r d)
  = Some (tally r (category_before cfg r d)).
Proof.
  unfold _add_result, category_before, dict_mem.
  destruct (dict_get (category r) d) as [c|] eqn:E.
  - now apply dict_get_adjust_same.
  - apply dict_get_adjust_same. now apply dict_get_snoc_absent.
Qed.

Lemma add_result_get_other cfg r d k :
  k <> category r ->
  dict_get k (_add_result cfg r d) = dict_get k d.
Proof.
  intros Hne. unfold _add_result, dict_mem.
  rewrite dict_get_adjust_other by assumption.
  destruct (dict_get (category r) d); [reflexivity|].
  now apply dict_get_snoc_other.
Qed.

(** ** The scoring loop *)

Lemma included_scored c : included (scored c) = included c.
Proof. unfold scored. destruct (included c) eqn:E; [|exact E]. exact E. Qed.

Lemma weight_scored c : weight (scored c) = weight c.
Proof. unfold scored. now destruct (included c). Qed.

Lemma included_categories_scored d :
  included_categories (scored_dict d) = map scored (included_categories d).
Proof.
  unfold included_categories, scored_dict.
  induction d as [|[k c] d IH]; simpl; [reflexivity|].
  rewrite included_scored. destruct (included c); simpl; now rewrite IH.
Qed.

Lemma score_loop_spec d : forall total_score total_weight,
  snd (score_loop d total_score total_weight) =
    (if forallb category_converts (included_categories d)
     then Ok (fold_left fadd (weighted_scores d) total_score,
              total_weight + zsum (map weight (included_categories d)))
     else Raise OverflowError)
  /\
  (forallb category_converts (included_categories d) = true ->
   fst (score_loop d total_score total_weight) = scored_dict d).
Proof.
  unfold weighted_scores, included_categories, scored_dict.
  induction d as [|[k c] d IH]; intros ts tw; simpl.
  - split; [now rewrite Z.add_0_r|reflexivity].
  - rewrite included_scored. unfold scored at 1 3 4.
    change (total_checks c >? 0) with (included c).
    destruct (included c) eqn:Hinc; simpl.
    + rewrite category_score_eq, float_of_int_converts.
      assert (Hcc : category_converts c
                    = converts (checks_passed c) && converts (checks_warned c)
                      && converts (total_checks c) && converts (weight c))
        by reflexivity.
      rewrite !Hcc. clear Hcc.
      destruct (converts (checks_passed c) && converts (checks_warned c)
                && converts (total_checks c)); simpl;
        [|split; [reflexivity|discriminate]].
      destruct (converts (weight c)); simpl;
        [|split; [reflexivity|discriminate]].
      specialize (IH (fadd ts
                        (fmul (score_formula (checks_passed c)
                                 (checks_warned c) (total_checks c))
                              (nearest (weight c))))
                     (tw + weight c)).
      destruct (score_loop d _ _) as [d'' r]. simpl in *.
      destruct IH as [IH1 IH2]. rewrite IH1. split.
      * destruct (forallb _ _); [|reflexivity]. f_equal; f_equal; lia.
      * intros H. now rewrite IH2.
    + specialize (IH ts tw).
      destruct (score_loop d ts tw) as [d'' r]. simpl in *.
      destruct IH as [IH1 IH2]. rewrite IH1. split; [reflexivity|].
      intros H. now rewrite IH2.
Qed.

(** [calculate] in closed form: it fails only by [OverflowError]. *)
Lemma calculate_result cfg d :
  snd (calculate cfg d) =
  if conversions_ok d
  then Ok (overall_score_of d,
           determine_grade (compliance_grading cfg) (overall_score_of d))
  else Raise OverflowError.
Proof.
  unfold calculate, conversions_ok, overall_score_of, overall_of, fsum.
  destruct (score_loop_spec d f0 0) as [H _].
  destruct (score_loop d f0 0) as [d' r]. simpl in *. subst r.
  destruct (forallb category_converts (included_categories d)); simpl;
    [|reflexivity].
  destruct (zsum (map weight (included_categories d)) >? 0); simpl;
    [|reflexivity].
  rewrite float_of_int_converts.
  now destruct (converts _).
Qed.

Lemma calculate_spec cfg d :
  conversions_ok d = true ->
  calculate cfg d =
  (scored_dict d,
   Ok (overall_score_of d,
       determine_grade (compliance_grading cfg) (overall_score_of d))).
Proof.
  intros Hok. pose proof (calculate_result cfg d) as Hr. rewrite Hok in Hr.
  unfold conversions_ok in Hok. apply andb_true_iff in Hok as [Hok _].
  destruct (score_loop_spec d f0 0) as [_ Hd]. specialize (Hd Hok).
  unfold calculate in *. destruct (score_loop d f0 0) as [d' r].
  simpl in *. now rewrite Hr, Hd.
Qed.

(** What [calculate] returns decides [conversions_ok]. *)
Lemma calculate_inv cfg d d' overall grade :
  calculate cfg d = (d', Ok (overall, grade)) ->
  conversions_ok d = true /\ d' = scored_dict d /\
  overall = overall_score_of d /\
  grade = determine_grade (compliance_grading cfg) overall.
Proof.
  intros H. pose proof (calculate_result cfg d) as Hr.
  rewrite H in Hr. simpl in Hr.
  destruct (conversions_ok d) eqn:Hok; [|discriminate].
  rewrite (calculate_spec cfg d Hok) in H.
  injection H as <- <- <-. auto.
Qed.

Lemma overall_score_by_weight_sum d :
  (0 < zsum (map weight (included_categories (scored_dict d))) ->
   overall_score_of d = weighted_mean (included_categories (scored_dict d)))
  /\
  (zsum (map weight (included_categories (scored_dict d))) <= 0 ->
   overall_score_of d = PyInt 0).
Proof.
  unfold overall_score_of, weighted_mean, weighted_scores.
  rewrite included_categories_scored, !map_map.
  rewrite (map_ext (fun c => weight (scored c)) weight weight_scored).
  destruct (Z.gtb_spec (zsum (map weight (included_categories d))) 0) as [H|H];
    destruct (Z.eqb_spec (zsum (map weight (included_categories d))) 0)
      as [H0|H0];
    split; intros Hw; try lia; reflexivity.
Qed.

(** ** Recording outcomes *)

Lemma record_all_app cfg rs1 rs2 d :
  record_all cfg (rs1 ++ rs2) d = record_all cfg rs2 (record_all cfg rs1 d).
Proof. unfold record_all. apply fold_left_app. Qed.

Lemma add_result_keys cfg r d :
  dict_keys (_add_result cfg r d) =
  if dict_mem (category r) d then dict_keys d
  else dict_keys d ++ [category r].
Proof.
  unfold _add_result. rewrite dict_keys_adjust.
  destruct (dict_mem (category r) d); [reflexivity|].
  unfold dict_keys. now rewrite map_app.
Qed.

Lemma add_result_NoDup cfg r d :
  NoDup (dict_keys d) -> NoDup (dict_keys (_add_result cfg r d)).
Proof.
  intros Hnd. rewrite add_result_keys. unfold dict_mem.
  destruct (dict_get (category r) d) eqn:E; [exact Hnd|].
  apply dict_get_None_keys in E.
  apply NoDup_app; [exact Hnd|repeat constructor; simpl; tauto|].
  intros x Hx [<-|[]]. tauto.
Qed.

Lemma record_all_NoDup cfg rs : forall d,
  NoDup (dict_keys d) -> NoDup (dict_keys (record_all cfg rs d)).
Proof.
  unfold record_all.
  induction rs as [|r rs IH]; intros d Hnd; simpl; [exact Hnd|].
  apply IH. now apply add_result_NoDup.
Qed.

Lemma NoDup_keys_get {V} k (v : V) (d : list (string * V)) :
  NoDup (dict_keys d) -> In (k, v) d -> dict_get k d = Some v.
Proof.
  unfold dict_keys.
  induction d as [|[k' v'] d IH]; simpl; intros Hnd Hin; [tauto|].
  inversion Hnd as [|? ? Hnotin Hnd']; subst.
  destruct Hin as [[= -> ->]|Hin].
  - now rewrite String.eqb_refl.
  - destruct (String.eqb k k') eqn:E.
    + apply String.eqb_eq in E. subst k'.
      exfalso. apply Hnotin. apply (in_map fst) in Hin. exact Hin.
    + auto.
Qed.

(** The dictionary after a sequence of outcomes, one key at a time. *)
Lemma record_all_get cfg k rs : forall d,
  dict_get k (record_all cfg rs d) =
  match filter (of_category k) rs, dict_get k d with
  | [], o => o
  | rk, Some c => Some (tally_all rk c)
  | rk, None =>
      Some (tally_all rk (new_CategoryResult k (configured_weight cfg k)))
  end.
Proof.
  unfold record_all, tally_all.
  induction rs as [|r rs IH]; intros d; simpl.
  - now destruct (dict_get k d).
  - rewrite IH. unfold of_category at 2.
    destruct (String.eqb (category r) k) eqn:E.
    + apply String.eqb_eq in E. subst k.
      rewrite add_result_get_same. unfold category_before. simpl.
      destruct (filter (of_category (category r)) rs);
        destruct (dict_get (category r) d); reflexivity.
    + apply String.eqb_neq in E.
      rewrite add_result_get_other by congruence. reflexivity.
Qed.

Lemma tally_all_fields rs : forall c,
  let c' := tally_all rs c in
  name c' = name c /\ weight c' = weight c /\ score c' = score c /\
  results c' = results c ++ rs /\
  checks_passed c' = checks_passed c + count passed rs /\
  checks_failed c' =
    checks_failed c + count (fun r => negb (passed r) && is_critical r) rs /\
  checks_warned c' =
    checks_warned c
    + count (fun r => negb (passed r) && negb (is_critical r)) rs.
Proof.
  unfold tally_all, count.
  induction rs as [|r rs IH]; intros c; simpl.
  - rewrite app_nil_r. repeat split; lia.
  - destruct (IH (tally r c)) as (H1 & H2 & H3 & H4 & H5 & H6 & H7).
    rewrite H1, H2, H3, H4, H5, H6, H7. clear.
    unfold tally, is_critical.
    destruct (passed r); [|destruct (String.eqb (severity r) "critical")];
      simpl; rewrite <- app_assoc; simpl;
      repeat split; try reflexivity; lia.
Qed.

(** ** Evaluators as recorders

    An evaluator touches the state only by recording outcomes and by
    logging reads, and never looks at it: [related] says so for a pair of
    runs under two category-weight tables. *)

Section Related.

Variable cfg : config.
Variable vc : list (string * option Z).
Variable P : ValidationResult -> Prop.
Variable Q : string -> Prop.

Local Abbreviation cfg' := (with_validation_categories vc cfg).
Local Abbreviation related := (related cfg vc P Q).

Lemma after_nil c s : after c s [] [] = s.
Proof. unfold after. simpl. rewrite app_nil_r. now destruct s. Qed.

Lemma after_after c s rs1 ps1 rs2 ps2 :
  after c (after c s rs1 ps1) rs2 ps2 = after c s (rs1 ++ rs2) (ps1 ++ ps2).
Proof. unfold after. simpl. now rewrite record_all_app, app_assoc. Qed.

Lemma related_ret {A} (a : A) : related (ret a) (ret a).
Proof.
  intros s s'. simpl. split; [reflexivity|].
  exists [], []. now rewrite !after_nil.
Qed.

Lemma related_raise {A} (e : exn) : related (@raise A e) (raise e).
Proof.
  intros s s'. simpl. split; [reflexivity|].
  exists [], []. now rewrite !after_nil.
Qed.

Lemma related_bind {A B} (m m' : M A) (k k' : A -> M B) :
  related m m' -> (forall a, related (k a) (k' a)) ->
  related (bind m k) (bind m' k').
Proof.
  intros Hm Hk s s'. unfold bind.
  destruct (Hm s s') as (Hr & rs & ps & HP & HQ & Ht & Ht').
  destruct (m s) as [[a|e] t], (m' s') as [[a'|e'] t'];
    simpl in Hr, Ht, Ht'; try discriminate; subst t t'.
  - injection Hr as <-.
    destruct (Hk a (after cfg s rs ps) (after cfg' s' rs ps))
      as (Hr2 & rs2 & ps2 & HP2 & HQ2 & Hu & Hu').
    split; [exact Hr2|].
    exists (rs ++ rs2), (ps ++ ps2). rewrite Hu, Hu', !after_after.
    repeat split; try reflexivity; apply Forall_app; auto.
  - injection Hr as <-. simpl. split; [reflexivity|]. exists rs, ps. auto.
Qed.

Lemma related_add_result r :
  P r -> related (add_result cfg r) (add_result cfg' r).
Proof.
  intros HP s s'. simpl. split; [reflexivity|].
  exists [r], []. unfold after. simpl. rewrite !app_nil_r. auto.
Qed.

Lemma related_log_read p :
  Q (path_str p) -> related (log_read p) (log_read p).
Proof.
  intros HQ s s'. simpl. split; [reflexivity|].
  exists [], [path_str p]. unfold after. simpl. auto.
Qed.

Lemma related_for_each {A} (l : list A) (f f' : A -> M unit) :
  (forall x, In x l -> related (f x) (f' x)) ->
  related (for_each l f) (for_each l f').
Proof.
  induction l as [|x l IH]; intros H; simpl.
  - apply related_ret.
  - apply related_bind; [apply H; now left|].
    intros _. apply IH. intros y Hy. apply H. now right.
Qed.

Lemma related_when c (m m' : M unit) :
  related m m' -> related (when c m) (when c m').
Proof. destruct c; simpl; [auto|intros _; apply related_ret]. Qed.

Lemma related_do_read b p n :
  Q (path_str p) -> related (do_read b p n) (do_read b p n).
Proof.
  intros HQ. unfold do_read. apply related_bind.
  - now apply related_log_read.
  - intros _. destruct (read_text b n); [apply related_ret|apply related_raise].
Qed.

Lemma related_read_file root p :
  Q (path_str (parts p)) -> related (_read_file root p) (_read_file root p).
Proof.
  intros HQ. unfold _read_file.
  destruct (lookup (parts p) (Dir root)); [|apply related_ret].
  apply related_bind; [now apply related_log_read|].
  intros _. destruct (read_text false n); apply related_ret.
Qed.

Lemma related_check_file_contains root p pat :
  Q (path_str (parts p)) ->
  related (_check_file_contains root p pat) (_check_file_contains root p pat).
Proof.
  intros HQ. unfold _check_file_contains.
  apply related_bind; [now apply related_read_file|].
  intros [s|]; apply related_ret.
Qed.

Lemma related_contains_opt pat o :
  related (contains_opt pat o) (contains_opt pat o).
Proof. destruct o; [apply related_ret|apply related_raise]. Qed.

(** One run, read off the pair. *)
Lemma related_left {A} (m m' : M A) s :
  related m m' ->
  exists rs ps, Forall P rs /\ Forall Q ps /\ snd (m s) = after cfg s rs ps.
Proof.
  intros H. destruct (H s s) as (_ & rs & ps & HP & HQ & Ht & _). eauto.
Qed.

End Related.

Lemma related_weaken cfg vc (P P' : ValidationResult -> Prop)
    (Q Q' : string -> Prop) {A} (m m' : M A) :
  (forall r, P r -> P' r) -> (forall p, Q p -> Q' p) ->
  related cfg vc P Q m m' -> related cfg vc P' Q' m m'.
Proof.
  intros HP HQ H s s'.
  destruct (H s s') as (Ha & rs & ps & H1 & H2 & H3 & H4).
  split; [exact Ha|]. exists rs, ps.
  repeat split; auto; eapply Forall_impl; eauto.
Qed.

(** ** Each evaluator records outcomes of its own category only *)

Ltac related_step :=
  first
    [ apply related_ret
    | apply related_raise
    | apply related_contains_opt
    | apply related_add_result
    | apply related_read_file
    | apply related_check_file_contains
    | apply related_do_read
    | apply related_when
    | apply related_for_each; intros
    | apply related_bind; [|intros]
    | match goal with
      | |- related _ _ _ _ (if ?b then _ else _) _ => destruct b eqn:?
      | |- related _ _ _ _ (match ?x with _ => _ end) _ => destruct x eqn:?
      end ].

Ltac related_auto :=
  cbn [with_validation_categories hooks documentation testing quality_gates
       git security naming_conventions migrations];
  repeat related_step; simpl;
  repeat match goal with
         | H : negb _ = false |- _ => apply negb_false_iff in H
         end;
  auto.

Section Evaluators.

Variable cfg : config.
Variable vc : list (string * option Z).
Variable root : listing.

Local Abbreviation cfg' := (with_validation_categories vc cfg).
Local Abbreviation any_path := (fun _ : string => True).

Lemma related_hooks :
  related cfg vc
    (fun r => category r = "hooks" /\ hooks_enabled (hooks cfg) = true)
    any_path (validate_hooks cfg root) (validate_hooks cfg' root).
Proof.
  unfold validate_hooks. related_auto.
Qed.

Lemma related_documentation :
  related cfg vc
    (fun r => category r = "documentation"
              /\ documentation_enabled (documentation cfg) = true)
    any_path (validate_documentation cfg root)
    (validate_documentation cfg' root).
Proof. unfold validate_documentation. related_auto. Qed.

Lemma related_testing :
  related cfg vc
    (fun r => category r = "testing"
              /\ testing_enabled (testing cfg) = true)
    any_path (validate_testing cfg root) (validate_testing cfg' root).
Proof. unfold validate_testing. related_auto. Qed.

Lemma related_quality_gates :
  related cfg vc
    (fun r => category r = "quality_gates"
              /\ quality_gates_enabled (quality_gates cfg) = true)
    any_path (validate_quality_gates cfg root)
    (validate_quality_gates cfg' root).
Proof. unfold validate_quality_gates. related_auto. Qed.

Lemma related_git :
  related cfg vc
    (fun r => category r = "git" /\ git_enabled (git cfg) = true)
    any_path (validate_git cfg root) (validate_git cfg' root).
Proof. unfold validate_git. related_auto. Qed.

Lemma related_naming_conventions :
  related cfg vc
    (fun r => category r = "naming_conventions"
              /\ naming_enabled (naming_conventions cfg) = true)
    any_path (validate_naming_conventions cfg root)
    (validate_naming_conventions cfg' root).
Proof.
  unfold validate_naming_conventions. related_auto.
Qed.

Lemma related_scan_migrations P files :
  related cfg vc P any_path (scan_migrations files) (scan_migrations files).
Proof.
  induction files as [|[p n] files IH]; simpl.
  - apply related_ret.
  - apply related_bind; [apply related_do_read; exact I|].
    intros content. apply related_bind; [exact IH|].
    intros more. apply related_ret.
Qed.

Lemma related_migrations :
  related cfg vc
    (fun r => category r = "migrations"
              /\ enabled_for_supabase (migrations cfg) = true)
    any_path (validate_migrations cfg root) (validate_migrations cfg' root).
Proof.
  unfold validate_migrations.
  cbn [with_validation_categories migrations].
  destruct (enabled_for_supabase (migrations cfg)); simpl;
    [|apply related_ret].
  destruct (lookup _ _); [|apply related_ret].
  apply related_bind; [apply related_scan_migrations|].
  intros files. apply related_add_result. auto.
Qed.

End Evaluators.

(** ** Names, suffixes and patterns *)

Lemma last_char_None s : last_char s = None -> s = "".
Proof.
  destruct s as [|c s]; simpl; [reflexivity|].
  destruct (last_char s); discriminate.
Qed.

Lemma endswith_last_char s suffix :
  PyStr.endswith s suffix = true -> suffix <> "" ->
  last_char s = last_char suffix.
Proof.
  intros H Hne. induction s as [|c s IH].
  - cbn [PyStr.endswith] in H. rewrite orb_false_r in H.
    apply String.eqb_eq in H. congruence.
  - cbn [PyStr.endswith] in H. apply orb_true_iff in H as [H|H].
    + apply String.eqb_eq in H. now subst.
    + specialize (IH H). simpl. rewrite IH.
      destruct (last_char suffix) eqn:E; [reflexivity|].
      apply last_char_None in E. contradiction.
Qed.

Lemma endswith_app a b suffix :
  PyStr.endswith b suffix = true -> PyStr.endswith (a ++ b) suffix = true.
Proof.
  intros H. induction a as [|c a IH]; simpl; [exact H|].
  rewrite IH. apply orb_true_r.
Qed.

Lemma endswith_path_str p suffix :
  p <> [] -> PyStr.endswith (path_name p) suffix = true ->
  PyStr.endswith (path_str p) suffix = true.
Proof.
  unfold path_str, path_name.
  induction p as [|x p IH]; intros Hne H; [contradiction|].
  destruct p as [|y p].
  - exact H.
  - change (PyStr.join "/" (x :: y :: p))
      with (x ++ "/" ++ PyStr.join "/" (y :: p))%string.
    apply endswith_app. apply (endswith_app "/").
    apply IH; [discriminate|exact H].
Qed.

Lemma glob_match_literal lit :
  no_wildcard lit = true -> forall s, glob_match lit s = String.eqb s lit.
Proof.
  induction lit as [|c lit IH]; intros Hw s.
  - now destruct s.
  - simpl in Hw. apply andb_true_iff in Hw as [Hw Hlit].
    apply andb_true_iff in Hw as [Hstar Hq].
    apply negb_true_iff in Hstar, Hq.
    cbn [glob_match]. rewrite Hstar, Hq.
    destruct s as [|d s]; [reflexivity|].
    simpl. rewrite (Ascii.eqb_sym d c). now rewrite IH.
Qed.

Lemma glob_match_star lit :
  no_wildcard lit = true ->
  forall s, glob_match (String "*" lit) s = PyStr.endswith s lit.
Proof.
  intros Hw s. cbn [glob_match]. rewrite Ascii.eqb_refl.
  induction s as [|d s IH].
  - now rewrite glob_match_literal.
  - cbn [PyStr.endswith]. rewrite <- IH.
    now rewrite glob_match_literal.
Qed.

Lemma secret_scan_pattern nm :
  glob_match "*.{ts,tsx,js,jsx}" nm = PyStr.endswith nm secret_scan_suffix.
Proof. now apply glob_match_star. Qed.

Lemma glob_in_name pat here es f :
  In f (glob_in pat here es) ->
  fst f <> [] /\ glob_match pat (path_name (fst f)) = true.
Proof.
  unfold glob_in. intros H. apply in_map_iff in H as ([nm n] & <- & H).
  apply filter_In in H as [_ H]. simpl in *.
  unfold path_name. rewrite last_last. split; [|exact H].
  now destruct here.
Qed.

Lemma rglob_name pat here n f :
  In f (rglob pat here n) ->
  fst f <> [] /\ glob_match pat (path_name (fst f)) = true.
Proof.
  unfold rglob. intros H. apply in_flat_map in H as (d & _ & H).
  eapply glob_in_name; eauto.
Qed.

Lemma ordinary_not_scanned p :
  ordinary_source_file p = true ->
  PyStr.endswith p secret_scan_suffix = false.
Proof.
  intros H. destruct (PyStr.endswith p secret_scan_suffix) eqn:E;
    [|reflexivity].
  apply endswith_last_char in E; [|discriminate].
  unfold ordinary_source_file in H.
  repeat (apply orb_true_iff in H as [H|H]);
    (apply endswith_last_char in H; [|discriminate]);
    rewrite H in E; discriminate.
Qed.

(** ** The secret scan *)

Section SecretScan.

Variable cfg : config.
Variable vc : list (string * option Z).
Variable root : listing.

Local Abbreviation cfg' := (with_validation_categories vc cfg).

Lemma related_scan_patterns patterns file_path content :
  security_enabled (security cfg) = true ->
  scanned_path (path_str file_path) ->
  related cfg vc (security_outcome cfg) scanned_path
    (scan_patterns cfg patterns file_path content)
    (scan_patterns cfg' patterns file_path content).
Proof.
  intros Hen Hp.
  induction patterns as [|[pattern nm] patterns IH]; simpl.
  - apply related_ret.
  - destruct (PyStr.contains pattern content); [|exact IH].
    apply related_add_result. unfold security_outcome. simpl.
    repeat split; eauto.
Qed.

Lemma related_scan_source_dir dir_name :
  security_enabled (security cfg) = true ->
  related cfg vc (security_outcome cfg) scanned_path
    (scan_source_dir cfg root dir_name) (scan_source_dir cfg' root dir_name).
Proof.
  intros Hen. unfold scan_source_dir.
  destruct (lookup (parts dir_name) (Dir root)) as [[b|es]|];
    try apply related_ret.
  apply related_for_each. intros f Hf.
  apply rglob_name in Hf as [Hne Hm].
  rewrite secret_scan_pattern in Hm.
  assert (Hp : scanned_path (path_str (fst f)))
    by now apply endswith_path_str.
  apply related_bind; [now apply related_do_read|].
  intros content. now apply related_scan_patterns.
Qed.

Lemma related_security :
  related cfg vc (security_outcome cfg) scanned_path
    (validate_security cfg root) (validate_security cfg' root).
Proof.
  unfold validate_security.
  cbn [with_validation_categories security].
  destruct (security_enabled (security cfg)) eqn:Hen; cbn [negb];
    [|apply related_ret].
  apply related_bind.
  - apply related_add_result. unfold security_outcome. simpl.
    repeat split; auto; discriminate.
  - intros _. apply related_for_each. intros d _.
    now apply related_scan_source_dir.
Qed.

End SecretScan.

(** ** The eight evaluators in sequence *)

Lemma category_enabled_intro cfg r k :
  category r = k -> category_enabled cfg k = true ->
  category_enabled cfg (category r) = true.
Proof. now intros ->. Qed.

Lemma related_run_evaluators cfg vc root :
  related cfg vc
    (fun r => category_enabled cfg (category r) = true) (fun _ => True)
    (run_evaluators cfg root)
    (run_evaluators (with_validation_categories vc cfg) root).
Proof.
  unfold run_evaluators.
  repeat (apply related_bind; [|intros _]).
  - eapply related_weaken; [| |apply related_hooks]; simpl; auto.
    intros r [H1 H2]. now apply (category_enabled_intro cfg r _ H1).
  - eapply related_weaken; [| |apply related_documentation]; simpl; auto.
    intros r [H1 H2]. now apply (category_enabled_intro cfg r _ H1).
  - eapply related_weaken; [| |apply related_testing]; simpl; auto.
    intros r [H1 H2]. now apply (category_enabled_intro cfg r _ H1).
  - eapply related_weaken; [| |apply related_quality_gates]; simpl; auto.
    intros r [H1 H2]. now apply (category_enabled_intro cfg r _ H1).
  - eapply related_weaken; [| |apply related_git]; simpl; auto.
    intros r [H1 H2]. now apply (category_enabled_intro cfg r _ H1).
  - eapply related_weaken; [| |apply related_security]; simpl; auto.
    intros r (H1 & H2 & _). now apply (category_enabled_intro cfg r _ H1).
  - eapply related_weaken; [| |apply related_naming_conventions]; simpl; auto.
    intros r [H1 H2]. now apply (category_enabled_intro cfg r _ H1).
  - eapply related_weaken; [| |apply related_migrations]; simpl; auto.
    intros r [H1 H2]. now apply (category_enabled_intro cfg r _ H1).
Qed.

(** ** The whole run *)

Lemma dict_keys_scored d : dict_keys (scored_dict d) = dict_keys d.
Proof.
  unfold dict_keys, scored_dict. rewrite map_map. now apply map_ext.
Qed.

Lemma dict_get_scored k d :
  dict_get k (scored_dict d) = option_map scored (dict_get k d).
Proof.
  unfold scored_dict. induction d as [|[k' c] d IH]; simpl; [reflexivity|].
  destruct (String.eqb k k'); [reflexivity|exact IH].
Qed.

(** A finished run, read backwards: the evaluators recorded some outcomes
    [rs] of enabled categories, and the report is the scoring of them. *)
Lemma validate_all_inv cfg root overall grade s :
  validate_all cfg root initial_state = (Ok (overall, grade), s) ->
  exists rs ps,
    Forall (fun r => category_enabled cfg (category r) = true) rs /\
    run_evaluators cfg root initial_state
      = (Ok tt, mkState (record_all cfg rs []) ps) /\
    conversions_ok (record_all cfg rs []) = true /\
    s = mkState (scored_dict (record_all cfg rs [])) ps /\
    overall = overall_score_of (record_all cfg rs []) /\
    grade = determine_grade (compliance_grading cfg) overall.
Proof.
  unfold validate_all, bind. intros H.
  destruct (related_left cfg [] _ _ _ _ initial_state
              (related_run_evaluators cfg [] root))
    as (rs & ps & HP & _ & Ht).
  destruct (run_evaluators cfg root initial_state) as [[[]|e] t];
    [|discriminate].
  simpl in Ht. subst t. unfold after in *. simpl in *.
  destruct (calculate cfg (record_all cfg rs [])) as [d' r] eqn:Hc.
  injection H as -> <-.
  apply calculate_inv in Hc as (Hok & -> & -> & ->).
  exists rs, ps. repeat split; auto.
Qed.

Lemma record_all_keys_category cfg rs k :
  In k (dict_keys (record_all cfg rs [])) ->
  exists r, In r rs /\ category r = k.
Proof.
  intros Hin.
  destruct (filter (of_category k) rs) as [|r rk] eqn:E.
  - exfalso. revert Hin. apply dict_get_None_keys.
    rewrite record_all_get, E. reflexivity.
  - assert (Hr : In r (filter (of_category k) rs)) by (rewrite E; now left).
    apply filter_In in Hr as [Hr Hk]. exists r. split; [exact Hr|].
    now apply String.eqb_eq.
Qed.

(** The stored category of a key after recording [rs] from nothing. *)
Lemma record_all_entry cfg rs k c :
  In (k, c) (record_all cfg rs []) ->
  let rk := filter (of_category k) rs in
  rk <> [] /\
  c = tally_all rk (new_CategoryResult k (configured_weight cfg k)).
Proof.
  intros Hin.
  assert (Hnd : NoDup (dict_keys (record_all cfg rs [])))
    by (apply record_all_NoDup; constructor).
  apply (NoDup_keys_get _ _ _ Hnd) in Hin.
  rewrite record_all_get in Hin. simpl in *.
  destruct (filter (of_category k) rs); [discriminate|].
  split; [discriminate|]. now injection Hin as <-.
Qed.

(** Recording depends on the weight table only through the weights of the
    categories that occur. *)
Lemma add_result_weights cfg cfg' r d :
  configured_weight cfg' (category r) = configured_weight cfg (category r) ->
  _add_result cfg' r d = _add_result cfg r d.
Proof. unfold _add_result. now intros ->. Qed.

Lemma record_all_weights cfg cfg' rs : forall d,
  Forall (fun r => configured_weight cfg' (category r)
                   = configured_weight cfg (category r)) rs ->
  record_all cfg' rs d = record_all cfg rs d.
Proof.
  unfold record_all. induction rs as [|r rs IH]; intros d H; simpl;
    [reflexivity|].
  inversion H; subst.
  rewrite (add_result_weights cfg cfg') by assumption. now apply IH.
Qed.

Lemma count_partition rs :
  count passed rs
  + count (fun r => negb (passed r) && is_critical r) rs
  + count (fun r => negb (passed r) && negb (is_critical r)) rs
  = Z.of_nat (List.length rs).
Proof.
  unfold count. induction rs as [|r rs IH]; [reflexivity|].
  cbn [filter List.length].
  destruct (passed r), (is_critical r); cbn [negb andb List.length]; lia.
Qed.

(** Every field of a category stored after recording [rs] from nothing. *)
Lemma recorded_entry cfg rs k c :
  In (k, c) (record_all cfg rs []) ->
  results c <> [] /\
  name c = k /\
  weight c = configured_weight cfg k /\
  score c = f0 /\
  checks_passed c = count passed (results c) /\
  checks_failed c
    = count (fun r => negb (passed r) && is_critical r) (results c) /\
  checks_warned c
    = count (fun r => negb (passed r) && negb (is_critical r)) (results c) /\
  total_checks c = Z.of_nat (List.length (results c)) /\
  included c = true.
Proof.
  intros Hin. apply record_all_entry in Hin as [Hne ->].
  set (rk := filter (of_category k) rs) in *.
  pose proof (tally_all_fields rk
                (new_CategoryResult k (configured_weight cfg k)))
    as (Hn & Hwt & Hs & Hres & Hp & Hf & Hw).
  pose proof (count_partition rk) as Hcount.
  set (c0 := tally_all rk _) in *. simpl in Hn, Hwt, Hs, Hres, Hp, Hf, Hw.
  assert (Hlen : (0 < List.length rk)%nat)
    by (destruct rk; [contradiction|simpl; lia]).
  assert (Htot : total_checks c0 = Z.of_nat (List.length rk))
    by (unfold total_checks; lia).
  rewrite Hres. repeat split; try assumption.
  unfold included. rewrite Htot. apply Z.gtb_lt. lia.
Qed.

Lemma scored_results c : results (scored c) = results c.
Proof. unfold scored. now destruct (included c). Qed.

Lemma scored_total_checks c : total_checks (scored c) = total_checks c.
Proof. unfold scored. now destruct (included c). Qed.

(** In the results of a finished run every category is included. *)
Lemma included_categories_recorded cfg rs :
  included_categories (record_all cfg rs []) = map snd (record_all cfg rs []).
Proof.
  unfold included_categories.
  assert (H : forall c, In c (map snd (record_all cfg rs [])) ->
                        included c = true).
  { intros c Hc. apply in_map_iff in Hc as ([k c0] & <- & Hin).
    now apply recorded_entry in Hin. }
  induction (map snd (record_all cfg rs [])) as [|c l IH]; [reflexivity|].
  simpl. rewrite (H c) by now left. f_equal. apply IH.
  intros c' Hc'. apply H. now right.
Qed.

(* ================================================================= *)
(** * The specification's statements *)

(** ** Tallying *)

(** C4. Recording an outcome changes exactly one counter of the outcome's
    category, by one: [checks_passed] when it passed, [checks_failed] when it
    did not pass and its severity is ['critical'], [checks_warned] in every
    other case; no other category changes. A non-passing ['info'] outcome is
    therefore tallied as a non-passing ['warning'] is, in [checks_warned],
    and alone in its category it scores 50. *)
Theorem add_result_routes_one_counter :
  (forall cfg r d,
     let c0 := category_before cfg r d in
     exists c1,
       dict_get (category r) (_add_result cfg r d) = Some c1 /\
       (checks_passed c1, checks_failed c1, checks_warned c1) =
         (if passed r
          then (checks_passed c0 + 1, checks_failed c0, checks_warned c0)
          else if String.eqb (severity r) "critical"
          then (checks_passed c0, checks_failed c0 + 1, checks_warned c0)
          else (checks_passed c0, checks_failed c0, checks_warned c0 + 1)) /\
       total_checks c1 = total_checks c0 + 1 /\
       results c1 = results c0 ++ [r] /\
       forall k, k <> category r ->
                 dict_get k (_add_result cfg r d) = dict_get k d)
  /\
  (forall cfg d cat nm msg det,
     let info := mkValidationResult cat nm false "info" msg det in
     let warning := mkValidationResult cat nm false "warning" msg det in
     let c0 := category_before cfg info d in
     exists ci cw,
       dict_get cat (_add_result cfg info d) = Some ci /\
       dict_get cat (_add_result cfg warning d) = Some cw /\
       checks_warned ci = checks_warned c0 + 1 /\
       checks_warned cw = checks_warned c0 + 1 /\
       checks_passed ci = checks_passed c0 /\
       checks_passed cw = checks_passed c0 /\
       checks_failed ci = checks_failed c0 /\
       checks_failed cw = checks_failed c0 /\
       category_score ci = category_score cw)
  /\
  (forall cfg cat nm msg det,
     let info := mkValidationResult cat nm false "info" msg det in
     exists ci,
       dict_get cat (_add_result cfg info []) = Some ci /\
       category_score ci = Ok (nearest 50)).
Proof.
  split; [|split].
  - intros cfg r d c0. exists (tally r c0). split.
    + apply add_result_get_same.
    + unfold tally, total_checks.
      repeat split.
      * destruct (passed r); [reflexivity|].
        now destruct (String.eqb (severity r) "critical").
      * destruct (passed r); [simpl; lia|].
        destruct (String.eqb (severity r) "critical"); simpl; lia.
      * destruct (passed r); [reflexivity|].
        now destruct (String.eqb (severity r) "critical").
      * intros k Hk. now apply add_result_get_other.
  - intros cfg d cat nm msg det info warning c0.
    exists (tally info c0), (tally warning c0).
    split; [apply (add_result_get_same cfg info d)|].
    split; [apply (add_result_get_same cfg warning d)|].
    repeat split.
  - intros cfg cat nm msg det info.
    exists (tally info (category_before cfg info [])).
    split; [apply (add_result_get_same cfg info [])|].
    reflexivity.
Qed.

(** ** Category scores *)

(** C1. When no conversion overflows, the scoring step of [validate_all]
    returns, stores for every category with at least one recorded outcome
    the score [((checks_passed + 0.5 * checks_warned) / total) * 100] with
    [total = checks_passed + checks_failed + checks_warned], and leaves a
    category without outcomes at the score it had, which is the [0.0] its
    constructor gave it. For [passed=3, warned=2, failed=1] the stored score
    lies within 0.01 of 66.67. *)
Theorem category_score_formula :
  (forall cfg d,
     conversions_ok d = true ->
     exists d' overall grade,
       calculate cfg d = (d', Ok (overall, grade)) /\
       Forall2
         (fun e e' =>
            fst e' = fst e /\
            let c := snd e in
            let total := checks_passed c + checks_failed c + checks_warned c in
            score (snd e') =
              if total >? 0
              then score_formula (checks_passed c) (checks_warned c) total
              else score c)
         d d')
  /\
  (forall n w, total_checks (new_CategoryResult n w) = 0
               /\ score (new_CategoryResult n w) = f0)
  /\
  (forall cfg root overall grade s,
     validate_all cfg root initial_state = (Ok (overall, grade), s) ->
     forall k c,
       In (k, c) (st_results s) ->
       let rs := results c in
       checks_passed c = count passed rs /\
       checks_failed c
         = count (fun r => negb (passed r) && is_critical r) rs /\
       checks_warned c
         = count (fun r => negb (passed r) && negb (is_critical r)) rs /\
       score c =
         score_formula (checks_passed c) (checks_warned c)
           (Z.of_nat (List.length rs)))
  /\
  (exists c' overall grade m e,
     calculate example_config [("hooks", category_3_2_1)]
       = ([("hooks", c')], Ok (overall, grade)) /\
     score c' = S754_finite false m e /\
     e = -46 /\
     6666 * 2 ^ 46 <= 100 * Z.pos m <= 6668 * 2 ^ 46).
Proof.
  split; [|split; [|split]].
  - intros cfg d Hok. rewrite (calculate_spec cfg d Hok).
    do 3 eexists. split; [reflexivity|].
    unfold scored_dict. clear Hok.
    induction d as [|[k c] d IH]; simpl; constructor; [|exact IH].
    simpl. split; [reflexivity|].
    unfold scored, included, total_checks.
    now destruct (checks_passed c + checks_failed c + checks_warned c >? 0).
  - intros n w. split; reflexivity.
  - intros cfg root overall grade s H k c Hin.
    apply validate_all_inv in H as (rs & ps & _ & _ & _ & -> & _ & _).
    cbn [st_results] in Hin. unfold scored_dict in Hin.
    apply in_map_iff in Hin as ([k0 c0] & [= <- <-] & Hin).
    apply recorded_entry in Hin
      as (_ & _ & _ & _ & Hp & Hf & Hw & Htot & Hinc).
    cbn [fst snd]. unfold scored. rewrite Hinc.
    cbn [set_score results checks_passed checks_failed checks_warned score].
    rewrite Htot. repeat split; assumption.
  - do 5 eexists. split; [vm_compute; reflexivity|].
    split; [vm_compute; reflexivity|].
    split; [reflexivity|]. split; vm_compute; discriminate.
Qed.

(** The rule of C1 at the example category. *)
Lemma category_score_formula_witness :
  conversions_ok [("hooks", category_3_2_1)] = true /\
  exists d' overall grade,
    calculate example_config [("hooks", category_3_2_1)]
      = (d', Ok (overall, grade)) /\
    Forall2
      (fun e e' =>
         fst e' = fst e /\
         let c := snd e in
         let total := checks_passed c + checks_failed c + checks_warned c in
         score (snd e') =
           if total >? 0
           then score_formula (checks_passed c) (checks_warned c) total
           else score c)
      [("hooks", category_3_2_1)] d'.
Proof.
  split; [reflexivity|].
  apply (proj1 category_score_formula example_config
           [("hooks", category_3_2_1)]).
  reflexivity.
Defined.

(** ** Overall score *)

(** C2 as the specification states it fails: with the weights -30 and 10
    for two categories that score 80 and 50, the weights sum to -20, not to
    0, and the weighted mean is 95.0, but the scoring step returns the
    [int] 0. *)
Lemma negative_weight_sum_scores_zero :
  exists hooks_cat git_cat grade,
    calculate example_config negative_weight_categories
      = ([("hooks", hooks_cat); ("git", git_cat)], Ok (PyInt 0, grade)) /\
    score hooks_cat = nearest 80 /\ weight hooks_cat = -30 /\
    score git_cat = nearest 50 /\ weight git_cat = 10 /\
    zsum (map weight [hooks_cat; git_cat]) = -20 /\
    weighted_mean [hooks_cat; git_cat] = PyFloat (nearest 95).
Proof.
  do 3 eexists. split; [vm_compute; reflexivity|].
  repeat split; vm_compute; reflexivity.
Qed.

(** C2, amended. When no conversion overflows, the scoring step returns
    as overall score the weighted mean of the stored scores of the
    categories with at least one outcome, each weighted by its weight,
    when these weights sum to a positive number, and the [int] 0 when
    they sum to zero or less. In a finished run the weight of a category
    is the one that the table [validation_categories] gives it, and the
    overall score is that weighted mean, or 0, over the categories of
    [self.results]. Two categories with weights 70 and 30 that score 80
    and 50 give 71.0, and in the report of the example project [hooks]
    carries its configured weight 15. *)
Theorem overall_score_is_weighted_mean :
  (forall cfg d,
     conversions_ok d = true ->
     exists d' overall grade,
       calculate cfg d = (d', Ok (overall, grade)) /\
       (0 < zsum (map weight (included_categories d')) ->
        overall = weighted_mean (included_categories d')) /\
       (zsum (map weight (included_categories d')) <= 0 ->
        overall = PyInt 0))
  /\
  (forall cfg root overall grade s,
     validate_all cfg root initial_state = (Ok (overall, grade), s) ->
     (forall k c,
        In (k, c) (st_results s) ->
        weight c = configured_weight cfg k /\
        (forall w,
           dict_get k (validation_categories cfg) = Some (Some w) ->
           weight c = w)) /\
     (0 < zsum (map weight (map snd (st_results s))) ->
      overall = weighted_mean (map snd (st_results s))) /\
     (zsum (map weight (map snd (st_results s))) <= 0 ->
      overall = PyInt 0))
  /\
  (exists hooks_cat git_cat grade,
     calculate example_config two_categories
       = ([("hooks", hooks_cat); ("git", git_cat)],
          Ok (PyFloat (nearest 71), grade)) /\
     score hooks_cat = nearest 80 /\ weight hooks_cat = 70 /\
     score git_cat = nearest 50 /\ weight git_cat = 30)
  /\
  (exists rep hooks_cat,
     run_report example_config project_two_secret_files = Ok rep /\
     dict_get "hooks" (validation_categories example_config)
       = Some (Some 15) /\
     dict_get "hooks" (j_categories rep) = Some hooks_cat /\
     j_weight hooks_cat = 15).
Proof.
  split; [|split; [|split]].
  - intros cfg d Hok. rewrite (calculate_spec cfg d Hok).
    do 3 eexists. split; [reflexivity|].
    apply overall_score_by_weight_sum.
  - intros cfg root overall grade s H.
    apply validate_all_inv in H as (rs & ps & _ & _ & _ & -> & -> & _).
    cbn [st_results] in *. split.
    { intros k c Hin. unfold scored_dict in Hin.
      apply in_map_iff in Hin as ([k0 c0] & [= <- <-] & Hin).
      apply recorded_entry in Hin as (_ & _ & Hw & _).
      cbn [fst snd]. rewrite weight_scored, Hw.
      split; [reflexivity|].
      intros w Hget. unfold configured_weight. now rewrite Hget. }
    assert (Hinc : included_categories (scored_dict (record_all cfg rs []))
                   = map snd (scored_dict (record_all cfg rs []))).
    { rewrite included_categories_scored, included_categories_recorded.
      unfold scored_dict. now rewrite !map_map. }
    rewrite <- Hinc. apply overall_score_by_weight_sum.
  - do 3 eexists. split; [vm_compute; reflexivity|].
    repeat split; vm_compute; reflexivity.
  - do 2 eexists. split; [vm_compute; reflexivity|].
    repeat split; vm_compute; reflexivity.
Qed.

(** The rule of C2 at the two example categories, whose weights sum to
    100. *)
Lemma overall_score_is_weighted_mean_witness :
  conversions_ok two_categories = true /\
  exists d' overall grade,
    calculate example_config two_categories = (d', Ok (overall, grade)) /\
    (0 < zsum (map weight (included_categories d')) ->
     overall = weighted_mean (included_categories d')) /\
    (zsum (map weight (included_categories d')) <= 0 ->
     overall = PyInt 0).
Proof.
  split; [reflexivity|].
  apply (proj1 overall_score_is_weighted_mean example_config two_categories).
  reflexivity.
Defined.

(** ** Grade *)

Lemma determine_grade_first_band bands overall :
  (exists before min_percent rest,
     bands = before ++ (determine_grade bands overall, min_percent) :: rest /\
     ge overall min_percent = true /\
     Forall (fun band => ge overall (snd band) = false) before)
  \/
  (determine_grade bands overall = "F" /\
   Forall (fun band => ge overall (snd band) = false) bands).
Proof.
  induction bands as [|[g thr] bands IH]; simpl.
  - right. split; [reflexivity|constructor].
  - destruct (ge overall thr) eqn:E.
    + left. exists [], thr, bands. repeat split; [exact E|constructor].
    + destruct IH as [(before & mp & rest & Hb & Hge & Hall)|[Hf Hall]].
      * left. exists ((g, thr) :: before), mp, rest.
        split; [simpl; f_equal; exact Hb|].
        split; [exact Hge|]. constructor; [exact E|exact Hall].
      * right. split; [exact Hf|]. constructor; [exact E|exact Hall].
Qed.

(** C3. For every overall score and every list of bands, the grade loop
    gives the name of the first band, in the order of the list, whose
    [min_percent] the score reaches, and ['F'] when it reaches none; the
    grade a finished run returns is that of its overall score over the
    bands of the configuration. With the bands A 95, B 80, C 60 in that
    order, 82 gives B and 40 gives F. *)
Theorem grade_is_first_band_reached :
  (forall bands overall,
     (exists before min_percent rest,
        bands = before ++ (determine_grade bands overall, min_percent) :: rest
        /\ ge overall min_percent = true
        /\ Forall (fun band => ge overall (snd band) = false) before)
     \/
     (determine_grade bands overall = "F" /\
      Forall (fun band => ge overall (snd band) = false) bands))
  /\
  (forall cfg root overall grade s,
     validate_all cfg root initial_state = (Ok (overall, grade), s) ->
     (exists before min_percent rest,
        compliance_grading cfg = before ++ (grade, min_percent) :: rest /\
        ge overall min_percent = true /\
        Forall (fun band => ge overall (snd band) = false) before)
     \/
     (grade = "F" /\
      Forall (fun band => ge overall (snd band) = false)
             (compliance_grading cfg)))
  /\
  determine_grade example_bands (PyFloat (nearest 82)) = "B" /\
  determine_grade example_bands (PyFloat (nearest 40)) = "F" /\
  determine_grade example_bands (PyInt 0) = "F" /\
  determine_grade [] (PyFloat (nearest 82)) = "F".
Proof.
  split; [exact determine_grade_first_band|].
  split; [|repeat split; reflexivity].
  intros cfg root overall grade s H.
  apply validate_all_inv in H as (rs & ps & _ & _ & _ & _ & _ & ->).
  apply determine_grade_first_band.
Qed.

(** The rule of C3 at the run on the example project. *)
Lemma grade_is_first_band_reached_witness :
  exists overall grade s,
    validate_all example_config project_two_secret_files initial_state
      = (Ok (overall, grade), s) /\
    ((exists before min_percent rest,
        compliance_grading example_config
          = before ++ (grade, min_percent) :: rest /\
        ge overall min_percent = true /\
        Forall (fun band => ge overall (snd band) = false) before)
     \/
     (grade = "F" /\
      Forall (fun band => ge overall (snd band) = false)
             (compliance_grading example_config))).
Proof.
  destruct (validate_all example_config project_two_secret_files
              initial_state) as [[[overall grade]|e] s] eqn:E;
    [|vm_compute in E; discriminate].
  exists overall, grade, s. split; [reflexivity|].
  exact (proj1 (proj2 grade_is_first_band_reached) _ _ _ _ _ E).
Defined.

(** ** Categories without outcomes *)

Lemma included_categories_app d1 d2 :
  included_categories (d1 ++ d2)
  = included_categories d1 ++ included_categories d2.
Proof. unfold included_categories. now rewrite map_app, filter_app. Qed.

Lemma included_categories_skip d1 d2 k c :
  included c = false ->
  included_categories (d1 ++ (k, c) :: d2) = included_categories (d1 ++ d2).
Proof.
  intros H. rewrite !included_categories_app. f_equal.
  unfold included_categories. simpl. now rewrite H.
Qed.

Lemma scored_dict_app d1 d2 :
  scored_dict (d1 ++ d2) = scored_dict d1 ++ scored_dict d2.
Proof. unfold scored_dict. apply map_app. Qed.

(** An entry that is not included changes nothing in the scoring. *)
Lemma calculate_skip d1 d2 k c :
  included c = false ->
  conversions_ok (d1 ++ (k, c) :: d2) = conversions_ok (d1 ++ d2) /\
  overall_score_of (d1 ++ (k, c) :: d2) = overall_score_of (d1 ++ d2).
Proof.
  intros H. unfold conversions_ok, overall_score_of, weighted_scores.
  rewrite !scored_dict_app. cbn [scored_dict map fst snd].
  change (map (fun e => (fst e, scored (snd e))) d2) with (scored_dict d2).
  rewrite !included_categories_skip by (now rewrite ?included_scored).
  now rewrite <- !scored_dict_app.
Qed.

Lemma record_all_category_key cfg rs r :
  In r rs -> In (category r) (dict_keys (record_all cfg rs [])).
Proof.
  intros Hr.
  destruct (dict_get (category r) (record_all cfg rs [])) as [c|] eqn:E.
  - apply dict_get_In in E. apply (in_map fst) in E. exact E.
  - exfalso. rewrite record_all_get in E.
    assert (Hin : In r (filter (of_category (category r)) rs)).
    { apply filter_In. split; [exact Hr|]. apply String.eqb_refl. }
    destruct (filter (of_category (category r)) rs);
      [contradiction|discriminate].
Qed.

(** A run is the same under another weight table when the two tables give
    the same weight to every category but one that recorded nothing. *)
Lemma validate_all_reweighted cfg vc root overall grade s k :
  validate_all cfg root initial_state = (Ok (overall, grade), s) ->
  ~ In k (dict_keys (st_results s)) ->
  (forall k', k' <> k ->
     configured_weight (with_validation_categories vc cfg) k'
     = configured_weight cfg k') ->
  validate_all (with_validation_categories vc cfg) root initial_state
  = (Ok (overall, grade), s).
Proof.
  unfold validate_all, bind. intros H Hnot Hw.
  destruct (related_run_evaluators cfg vc root initial_state initial_state)
    as (Hr & rs & ps & _ & _ & Ht & Ht').
  destruct (run_evaluators cfg root initial_state) as [[[]|e] t];
    [|discriminate].
  destruct (run_evaluators (with_validation_categories vc cfg) root
              initial_state) as [[[]|e'] t']; [|discriminate].
  simpl in Ht, Ht'. subst t t'.
  unfold after, initial_state in *. cbn [st_results st_reads app] in *.
  destruct (calculate cfg (record_all cfg rs [])) as [d' r] eqn:Hc.
  injection H as -> <-.
  apply calculate_inv in Hc as (Hok & -> & -> & ->).
  cbn [st_results] in Hnot. rewrite dict_keys_scored in Hnot.
  assert (Hsame : record_all (with_validation_categories vc cfg) rs []
                  = record_all cfg rs []).
  { apply record_all_weights. apply Forall_forall. intros r Hr'.
    apply Hw. intros <-. apply Hnot. now apply record_all_category_key. }
  rewrite Hsame.
  now rewrite (calculate_spec (with_validation_categories vc cfg) _ Hok).
Qed.

(** C5. A category without recorded outcomes takes no part in the overall
    score and is not in the report. In a finished run every category of
    [self.results] has an outcome, a category whose evaluator the
    configuration disables is not in the report, and for a category that is
    not in the report the run is the same under any other weight of that
    category. In the scoring loop, an entry whose counters are all zero adds
    neither score nor weight: with it, with it under another weight, and
    without it, the overall score and the grade are the same. *)
Theorem category_without_outcomes_is_excluded :
  (forall cfg root overall grade s,
     validate_all cfg root initial_state = (Ok (overall, grade), s) ->
     (forall k c, In (k, c) (st_results s) ->
                  results c <> [] /\ 0 < total_checks c) /\
     (forall k,
        category_enabled cfg k = false ->
        ~ In k (dict_keys
                  (j_categories (export_json (st_results s) overall grade)))) /\
     (forall k vc,
        ~ In k (dict_keys
                  (j_categories (export_json (st_results s) overall grade))) ->
        (forall k', k' <> k ->
           configured_weight (with_validation_categories vc cfg) k'
           = configured_weight cfg k') ->
        validate_all (with_validation_categories vc cfg) root initial_state
        = (Ok (overall, grade), s)))
  /\
  (forall cfg d1 d2 k c w d' overall grade,
     total_checks c = 0 ->
     calculate cfg (d1 ++ (k, c) :: d2) = (d', Ok (overall, grade)) ->
     (exists d'',
        calculate cfg (d1 ++ (k, with_weight c w) :: d2)
        = (d'', Ok (overall, grade))) /\
     (exists d'', calculate cfg (d1 ++ d2) = (d'', Ok (overall, grade)))).
Proof.
  split.
  - intros cfg root overall grade s H.
    apply validate_all_inv in H
      as (rs & ps & Hen & Hrun & Hok & -> & -> & ->).
    cbn [st_results].
    assert (Hkeys :
               dict_keys (j_categories
                 (export_json (scored_dict (record_all cfg rs []))
                    (overall_score_of (record_all cfg rs []))
                    (determine_grade (compliance_grading cfg)
                       (overall_score_of (record_all cfg rs [])))))
               = dict_keys (record_all cfg rs [])).
    { unfold export_json, dict_keys. cbn [j_categories].
      rewrite map_map. cbn [fst]. apply dict_keys_scored. }
    split; [|split].
    + intros k c Hin. unfold scored_dict in Hin.
      apply in_map_iff in Hin as ([k0 c0] & [= <- <-] & Hin).
      apply recorded_entry in Hin
        as (Hne & _ & _ & _ & _ & _ & _ & Htot & Hinc).
      cbn [fst snd]. rewrite scored_results, scored_total_checks.
      split; [exact Hne|]. unfold included in Hinc.
      now apply Z.gtb_lt in Hinc.
    + intros k Hdis. rewrite Hkeys. intros Hin.
      apply record_all_keys_category in Hin as (r & Hr & <-).
      rewrite Forall_forall in Hen. specialize (Hen r Hr). congruence.
    + intros k vc Hnot Hw. rewrite Hkeys in Hnot.
      apply (validate_all_reweighted cfg vc root _ _ _ k).
      * unfold validate_all, bind. rewrite Hrun. cbn [st_results st_reads].
        now rewrite (calculate_spec cfg _ Hok).
      * cbn [st_results]. now rewrite dict_keys_scored.
      * exact Hw.
  - intros cfg d1 d2 k c w d' overall grade Hzero H.
    assert (Hc : included c = false)
      by (unfold included; rewrite Hzero; reflexivity).
    assert (Hcw : included (with_weight c w) = false) by exact Hc.
    apply calculate_inv in H as (Hok & _ & -> & ->).
    destruct (calculate_skip d1 d2 k c Hc) as [Hok1 Hov1].
    destruct (calculate_skip d1 d2 k (with_weight c w) Hcw) as [Hok2 Hov2].
    split; eexists.
    + rewrite calculate_spec by (now rewrite Hok2, <- Hok1).
      now rewrite Hov2, <- Hov1.
    + rewrite calculate_spec by (now rewrite <- Hok1).
      now rewrite <- Hov1.
Qed.

Lemma reweighted_migrations_elsewhere k' :
  k' <> "migrations" ->
  configured_weight
    (with_validation_categories reweighted_migrations example_config) k'
  = configured_weight example_config k'.
Proof.
  intros Hk. apply String.eqb_neq in Hk.
  unfold configured_weight, reweighted_migrations.
  cbn [with_validation_categories validation_categories dict_get].
  now rewrite Hk.
Qed.

(** The run-level part of C5 on the example project, which has no
    migrations directory: the weight of [migrations] may change freely. *)
Lemma category_without_outcomes_is_excluded_witness :
  exists overall grade s,
    validate_all example_config project_two_secret_files initial_state
      = (Ok (overall, grade), s) /\
    ~ In "migrations"
        (dict_keys (j_categories (export_json (st_results s) overall grade)))
    /\
    validate_all
      (with_validation_categories reweighted_migrations example_config)
      project_two_secret_files initial_state
    = (Ok (overall, grade), s).
Proof.
  destruct (validate_all example_config project_two_secret_files
              initial_state) as [[[overall grade]|e] s] eqn:E;
    [|vm_compute in E; discriminate].
  exists overall, grade, s. split; [reflexivity|].
  assert (Hnot : ~ In "migrations"
             (dict_keys
                (j_categories (export_json (st_results s) overall grade)))).
  { vm_compute in E. injection E as <- <- <-. vm_compute.
    intuition discriminate. }
  split; [exact Hnot|].
  exact (proj2 (proj2 (proj1 category_without_outcomes_is_excluded
                         example_config project_two_secret_files
                         overall grade s E))
           "migrations" reweighted_migrations Hnot
           reweighted_migrations_elsewhere).
Defined.

(** ** A missing category weight *)

(** C6 as the specification states it fails: under the rules without any
    weight entry the run on the example project ends with a report, in
    which [security] carries the weight 10. *)
Lemma missing_weight_run_still_reports :
  dict_get "security" (validation_categories config_without_weights) = None /\
  exists rep sec,
    run_report config_without_weights project_two_secret_files = Ok rep /\
    dict_get "security" (j_categories rep) = Some sec /\
    j_weight sec = 10 /\
    j_results sec <> [].
Proof.
  split; [reflexivity|].
  do 2 eexists. split; [vm_compute; reflexivity|].
  split; [vm_compute; reflexivity|]. split; [reflexivity|discriminate].
Qed.

Lemma validate_all_same_weights cfg vc root :
  (forall k, configured_weight (with_validation_categories vc cfg) k
             = configured_weight cfg k) ->
  validate_all (with_validation_categories vc cfg) root initial_state
  = validate_all cfg root initial_state.
Proof.
  intros Hw. unfold validate_all, bind.
  destruct (related_run_evaluators cfg vc root initial_state initial_state)
    as (Hr & rs & ps & _ & _ & Ht & Ht').
  assert (Hsame : record_all (with_validation_categories vc cfg) rs []
                  = record_all cfg rs []).
  { apply record_all_weights. apply Forall_forall. intros r _. apply Hw. }
  destruct (run_evaluators cfg root initial_state) as [[[]|e] t];
    destruct (run_evaluators (with_validation_categories vc cfg) root
                initial_state) as [[[]|e'] t'];
    try discriminate; simpl in Ht, Ht', Hr; subst t t';
    unfold after, initial_state in *; cbn [st_results st_reads app] in *;
    rewrite Hsame.
  - reflexivity.
  - now injection Hr as ->.
Qed.

Lemma configured_weight_written_out cfg k :
  (forall w, dict_get k (validation_categories cfg) <> Some (Some w)) ->
  forall k',
    configured_weight
      (with_validation_categories ((k, Some 10) :: validation_categories cfg)
         cfg) k'
    = configured_weight cfg k'.
Proof.
  intros Hno k'. unfold configured_weight.
  cbn [with_validation_categories validation_categories dict_get].
  destruct (String.eqb k' k) eqn:E; [|reflexivity].
  apply String.eqb_eq in E. subst k'.
  destruct (dict_get k (validation_categories cfg)) as [[w|]|];
    [now destruct (Hno w)|reflexivity|reflexivity].
Qed.

(** C6, amended. In a configuration that has the table
    [validation_categories], a category that records an outcome and has no
    weight entry is created with the weight 10, and the missing entry
    raises no error: the lookup of the weight fails for an absent table
    only. The run ends exactly as it does with the weight 10 written into
    the table: [validate_all] returns the same score and grade and leaves
    the same results, or raises the same exception, and [main] gives the
    same report. More generally two tables that give every category the
    same weight, a missing entry counting as 10, give the same run. In a
    finished run every category of the report carries its configured
    weight, which is 10 where the table has no weight for it, and the
    scoring step fails by [OverflowError] only. *)
Theorem missing_weight_defaults_to_ten :
  (forall cfg r d,
     dict_get (category r) d = None ->
     (forall w, dict_get (category r) (validation_categories cfg)
                <> Some (Some w)) ->
     exists c, dict_get (category r) (_add_result cfg r d) = Some c /\
               weight c = 10)
  /\
  (forall cfg root overall grade s,
     validate_all cfg root initial_state = (Ok (overall, grade), s) ->
     forall k c,
       In (k, c) (j_categories (export_json (st_results s) overall grade)) ->
       j_weight c = configured_weight cfg k /\
       ((forall w, dict_get k (validation_categories cfg) <> Some (Some w)) ->
        j_weight c = 10))
  /\
  (forall cfg k root,
     (forall w, dict_get k (validation_categories cfg) <> Some (Some w)) ->
     let written_out :=
       with_validation_categories ((k, Some 10) :: validation_categories cfg)
         cfg in
     validate_all written_out root initial_state
     = validate_all cfg root initial_state /\
     run_report written_out root = run_report cfg root)
  /\
  (forall cfg vc root,
     (forall k, configured_weight (with_validation_categories vc cfg) k
                = configured_weight cfg k) ->
     validate_all (with_validation_categories vc cfg) root initial_state
     = validate_all cfg root initial_state /\
     run_report (with_validation_categories vc cfg) root
     = run_report cfg root)
  /\
  (forall cfg cat,
     weight_lookup (Some (validation_categories cfg)) cat
     = Some (configured_weight cfg cat)) /\
  (forall table cat, weight_lookup table cat = None <-> table = None)
  /\
  (forall cfg vc root,
     fst (run_evaluators cfg root initial_state)
     = fst (run_evaluators (with_validation_categories vc cfg) root
              initial_state))
  /\
  (forall cfg d d' e, calculate cfg d = (d', Raise e) -> e = OverflowError).
Proof.
  assert (Hten : forall cfg k,
             (forall w, dict_get k (validation_categories cfg)
                        <> Some (Some w)) ->
             configured_weight cfg k = 10).
  { intros cfg k H. unfold configured_weight.
    destruct (dict_get k (validation_categories cfg)) as [[w|]|];
      [now destruct (H w)|reflexivity|reflexivity]. }
  assert (Hrun : forall cfg vc root,
             (forall k, configured_weight (with_validation_categories vc cfg) k
                        = configured_weight cfg k) ->
             validate_all (with_validation_categories vc cfg) root
               initial_state
             = validate_all cfg root initial_state /\
             run_report (with_validation_categories vc cfg) root
             = run_report cfg root).
  { intros cfg vc root Hw.
    pose proof (validate_all_same_weights cfg vc root Hw) as H.
    split; [exact H|]. unfold run_report. now rewrite H. }
  split; [|split; [|split; [|split; [|split; [|split; [|split]]]]]].
  - intros cfg r d Hnew Hno. eexists. split; [apply add_result_get_same|].
    unfold category_before. rewrite Hnew.
    assert (Hw : forall c, weight (tally r c) = weight c).
    { intros c. unfold tally. destruct (passed r); [reflexivity|].
      now destruct (String.eqb (severity r) "critical"). }
    rewrite Hw. simpl. now apply Hten.
  - intros cfg root overall grade s H k c Hin.
    apply validate_all_inv in H as (rs & ps & _ & _ & _ & -> & _ & _).
    unfold export_json in Hin. cbn [j_categories st_results] in Hin.
    apply in_map_iff in Hin as ([k0 c0] & [= <- <-] & Hin).
    unfold scored_dict in Hin.
    apply in_map_iff in Hin as ([k1 c1] & [= <- <-] & Hin).
    apply recorded_entry in Hin as (_ & _ & Hw & _).
    cbn [fst snd j_weight]. rewrite weight_scored, Hw.
    split; [reflexivity|]. apply Hten.
  - intros cfg k root Hno written_out. subst written_out.
    apply Hrun. now apply configured_weight_written_out.
  - exact Hrun.
  - reflexivity.
  - intros table cat. destruct table; simpl; split; congruence.
  - intros cfg vc root.
    now destruct (related_run_evaluators cfg vc root initial_state
                    initial_state) as [H _].
  - intros cfg d d' e H. pose proof (calculate_result cfg d) as Hr.
    rewrite H in Hr. simpl in Hr.
    destruct (conversions_ok d); [discriminate|]. now injection Hr.
Qed.

(** The first rule of C6 at the first outcome of the security evaluator
    under the rules without weights. *)
Lemma missing_weight_defaults_to_ten_witness :
  dict_get (category missing_env_example) ([] : results_dict) = None /\
  (forall w,
     dict_get (category missing_env_example)
       (validation_categories config_without_weights)
     <> Some (Some w)) /\
  exists c,
    dict_get (category missing_env_example)
      (_add_result config_without_weights missing_env_example [])
    = Some c /\
    weight c = 10.
Proof.
  assert (H1 : dict_get (category missing_env_example) ([] : results_dict)
               = None) by reflexivity.
  assert (H2 : forall w,
             dict_get (category missing_env_example)
               (validation_categories config_without_weights)
             <> Some (Some w)) by (intros w; discriminate).
  split; [exact H1|]. split; [exact H2|].
  exact (proj1 missing_weight_defaults_to_ten config_without_weights
           missing_env_example [] H1 H2).
Defined.

(** ** The secret scan *)

(** C7 fails on the code, by the same defect as C8: the secret scan records
    [no_hardcoded_secrets] once for every file with a match, not once for the
    scan, and names one path without any cap. On the example project with
    two such files the security category holds two failing critical
    outcomes of that name. *)
Theorem secret_scan_records_one_outcome_per_file :
  exists rep sec,
    run_report example_config project_two_secret_files = Ok rep /\
    dict_get "security" (j_categories rep) = Some sec /\
    map outcome_summary (j_results sec) =
      [("env_example_exists", false, "warning",
        Some "Not found (recommended)");
       ("no_hardcoded_secrets", false, "critical",
        Some "Found in src/keys.{ts,tsx,js,jsx}");
       ("no_hardcoded_secrets", false, "critical",
        Some "Found in src/lib/aws.{ts,tsx,js,jsx}")] /\
    j_checks_failed sec = 2.
Proof.
  do 2 eexists. split; [vm_compute; reflexivity|].
  split; [vm_compute; reflexivity|]. split; reflexivity.
Qed.

(** C8 fails on the code, by the same defect as C7: in the report of the
    example project the check name [no_hardcoded_secrets] stands twice in
    the security category. *)
Theorem check_name_repeats_within_security :
  exists rep sec,
    run_report example_config project_two_secret_files = Ok rep /\
    dict_get "security" (j_categories rep) = Some sec /\
    ~ NoDup (map j_check (j_results sec)).
Proof.
  do 2 eexists. split; [vm_compute; reflexivity|].
  split; [vm_compute; reflexivity|].
  cbn [map j_check j_results]. intros H.
  inversion H as [|? ? _ H1]; subst.
  inversion H1 as [|? ? Hnot _]; subst.
  apply Hnot. now left.
Qed.

(** ** Unreadable files *)

(** C9 fails on the code: a migration that cannot be decoded ends the run
    with [UnicodeDecodeError] and no report, where the same project with
    the file readable is reported; a scanned source file that cannot be
    opened ends it with [PermissionError]; and a [CLAUDE.md] that cannot be
    opened is read as [None] and ends it with [TypeError]. *)
Theorem unreadable_file_aborts_run :
  run_report example_config project_garbled_migration
    = Raise UnicodeDecodeError /\
  (exists rep,
     run_report example_config project_readable_migration = Ok rep) /\
  run_report example_config project_locked_source = Raise PermissionError /\
  run_report example_config project_locked_claude_md = Raise TypeError.
Proof.
  split; [vm_compute; reflexivity|].
  split; [eexists; vm_compute; reflexivity|].
  split; vm_compute; reflexivity.
Qed.

(** ** The pattern of the secret scan *)

Lemma found_in_injective p q :
  Some ("Found in " ++ p)%string = Some ("Found in " ++ q)%string -> p = q.
Proof. now intros [= ->]. Qed.

(** C10. Whether the security evaluator returns or raises, every path it
    handed to [read_text] ends with the literal [.{ts,tsx,js,jsx}], and so
    does the path named by every [no_hardcoded_secrets] outcome it
    recorded; hence a path ending in [.ts], [.tsx], [.js] or [.jsx] was
    neither read nor reported. On the example project whose [config.ts]
    holds a live key, the evaluator reads the file with the brace name only
    and records no secret. *)
Theorem secret_scan_reads_only_brace_names :
  (forall cfg root s,
     exists rs ps,
       snd (validate_security cfg root s) = after cfg s rs ps /\
       Forall (fun p => PyStr.endswith p secret_scan_suffix = true) ps /\
       Forall (fun r =>
                 check_name r = "no_hardcoded_secrets" ->
                 exists p, details r = Some ("Found in " ++ p)%string /\
                           PyStr.endswith p secret_scan_suffix = true) rs /\
       forall p,
         ordinary_source_file p = true ->
         ~ In p ps /\
         ~ exists r, In r rs /\ check_name r = "no_hardcoded_secrets" /\
                     details r = Some ("Found in " ++ p)%string)
  /\
  (forall nm,
     glob_match "*.{ts,tsx,js,jsx}" nm = PyStr.endswith nm secret_scan_suffix)
  /\
  validate_security example_config project_ordinary_secret initial_state
  = (Ok tt,
     after example_config initial_state [missing_env_example]
       ["src/keys.{ts,tsx,js,jsx}"]).
Proof.
  split; [|split; [exact secret_scan_pattern|vm_compute; reflexivity]].
  intros cfg root s.
  destruct (related_left cfg [] _ _ _ _ s (related_security cfg [] root))
    as (rs & ps & Hrs & Hps & Hs).
  exists rs, ps. split; [exact Hs|]. split; [exact Hps|].
  assert (Hnamed : Forall (fun r =>
              check_name r = "no_hardcoded_secrets" ->
              exists p, details r = Some ("Found in " ++ p)%string /\
                        PyStr.endswith p secret_scan_suffix = true) rs).
  { eapply Forall_impl; [|exact Hrs].
    intros r (_ & _ & H) Hn. destruct (H Hn) as (_ & _ & p & Hd & Hp).
    now exists p. }
  split; [exact Hnamed|].
  intros p Hord. apply ordinary_not_scanned in Hord. split.
  - intros Hin. rewrite Forall_forall in Hps. specialize (Hps p Hin).
    unfold scanned_path in Hps. congruence.
  - intros (r & Hin & Hn & Hd). rewrite Forall_forall in Hnamed.
    destruct (Hnamed r Hin Hn) as (q & Hq & Hend).
    rewrite Hd in Hq. apply found_in_injective in Hq. subst q. congruence.
Qed.

(* ================================================================= *)
(** * Further properties of the code *)

(** ** The dictionary of results *)

Lemma dict_mem_keys {V} k (d : list (string * V)) :
  dict_mem k d = PyStr.mem k (dict_keys d).
Proof.
  unfold dict_mem, dict_keys, PyStr.mem.
  induction d as [|[k' v] d IH]; simpl; [reflexivity|].
  destruct (String.eqb k k'); [reflexivity|exact IH].
Qed.

Lemma record_all_keys cfg rs : forall d,
  dict_keys (record_all cfg rs d)
  = dict_keys d ++ first_occurrences (dict_keys d) (map category rs).
Proof.
  unfold record_all.
  induction rs as [|r rs IH]; intros d; simpl.
  - now rewrite app_nil_r.
  - rewrite IH, add_result_keys, dict_mem_keys.
    destruct (PyStr.mem (category r) (dict_keys d)); [reflexivity|].
    now rewrite <- app_assoc.
Qed.

(** X1. [self.results] holds one key for every category that recorded an
    outcome, without repetition, in the order in which the categories
    recorded their first outcome. *)
Theorem results_keys_in_order_of_first_outcome cfg rs :
  dict_keys (record_all cfg rs []) = first_occurrences [] (map category rs)
  /\ NoDup (dict_keys (record_all cfg rs []))
  /\ forall k, In k (dict_keys (record_all cfg rs []))
               <-> exists r, In r rs /\ category r = k.
Proof.
  split; [apply (record_all_keys cfg rs [])|].
  split; [apply record_all_NoDup; constructor|].
  intros k. split.
  - apply record_all_keys_category.
  - intros (r & Hr & <-). now apply record_all_category_key.
Qed.

Lemma outcome_count_adjust r k d :
  dict_mem k d = true ->
  outcome_count (dict_adjust (tally r) k d) = S (outcome_count d).
Proof.
  unfold outcome_count, dict_mem.
  induction d as [|[k' c] d IH]; simpl; [discriminate|].
  destruct (String.eqb k k') eqn:E; simpl.
  - intros _. f_equal.
    assert (H : results (tally r c) = results c ++ [r]).
    { unfold tally. destruct (passed r); [reflexivity|].
      now destruct (String.eqb (severity r) "critical"). }
    rewrite H, length_app. simpl. lia.
  - intros H. rewrite IH by exact H. lia.
Qed.

Lemma outcome_count_add_result cfg r d :
  outcome_count (_add_result cfg r d) = S (outcome_count d).
Proof.
  unfold _add_result. destruct (dict_mem (category r) d) eqn:E.
  - now apply outcome_count_adjust.
  - rewrite outcome_count_adjust.
    + unfold outcome_count. rewrite map_app, list_sum_app. simpl. lia.
    + unfold dict_mem in *.
      destruct (dict_get (category r) d) eqn:E'; [discriminate|].
      now rewrite (dict_get_snoc_absent _ _ _ E').
Qed.

Lemma outcome_count_record_all cfg rs : forall d,
  outcome_count (record_all cfg rs d)
  = (outcome_count d + List.length rs)%nat.
Proof.
  unfold record_all.
  induction rs as [|r rs IH]; intros d; simpl; [lia|].
  rewrite IH, outcome_count_add_result. lia.
Qed.

(** X2. Recording keeps every outcome once: after any sequence of
    outcomes, the [results] of a category are the outcomes of that category
    in the order they were recorded, its three counters add up to their
    number, a category without outcome has no entry, and the dictionary
    holds as many outcomes as were recorded. *)
Theorem recording_keeps_every_outcome_once cfg rs :
  (forall k,
     match dict_get k (record_all cfg rs []) with
     | Some c =>
         results c = filter (of_category k) rs /\
         results c <> [] /\
         checks_passed c + checks_failed c + checks_warned c
         = Z.of_nat (List.length (results c))
     | None => filter (of_category k) rs = []
     end)
  /\ outcome_count (record_all cfg rs []) = List.length rs.
Proof.
  split.
  - intros k. destruct (dict_get k (record_all cfg rs [])) as [c|] eqn:E.
    + apply dict_get_In in E. pose proof E as E'.
      apply record_all_entry in E' as [Hne ->].
      apply recorded_entry in E as (_ & _ & _ & _ & _ & _ & _ & Htot & _).
      destruct (tally_all_fields (filter (of_category k) rs)
                  (new_CategoryResult k (configured_weight cfg k)))
        as (_ & _ & _ & Hres & _).
      simpl in Hres. rewrite Hres in *. repeat split; assumption.
    + rewrite record_all_get in E.
      now destruct (filter (of_category k) rs).
  - now rewrite outcome_count_record_all.
Qed.

(** ** Scoring again, and ordered bands *)

Lemma score_loop_again d : forall total_score total_weight,
  score_loop (fst (score_loop d total_score total_weight))
    total_score total_weight
  = score_loop d total_score total_weight.
Proof.
  induction d as [|[k c] d IH]; intros ts tw; [reflexivity|].
  cbn [score_loop].
  destruct (total_checks c >? 0) eqn:Hinc.
  - destruct (category_score c) as [s|e] eqn:Hs.
    + destruct (float_of_int (weight c)) as [w|e] eqn:Hw.
      * specialize (IH (fadd ts (fmul s w)) (tw + weight c)).
        destruct (score_loop d (fadd ts (fmul s w)) (tw + weight c))
          as [d'' r] eqn:Hl.
        cbn [fst score_loop] in *.
        change (total_checks (set_score c s)) with (total_checks c).
        change (category_score (set_score c s)) with (category_score c).
        change (weight (set_score c s)) with (weight c).
        rewrite Hinc, Hs, Hw, IH. reflexivity.
      * cbn [fst score_loop].
        change (total_checks (set_score c s)) with (total_checks c).
        change (category_score (set_score c s)) with (category_score c).
        change (weight (set_score c s)) with (weight c).
        now rewrite Hinc, Hs, Hw.
    + cbn [fst score_loop]. now rewrite Hinc, Hs.
  - specialize (IH ts tw).
    destruct (score_loop d ts tw) as [d'' r] eqn:Hl.
    cbn [fst score_loop] in *. now rewrite Hinc, IH.
Qed.

Lemma score_loop_keeps d : forall total_score total_weight,
  map (fun e => (fst e, without_score (snd e)))
      (fst (score_loop d total_score total_weight))
  = map (fun e => (fst e, without_score (snd e))) d.
Proof.
  induction d as [|[k c] d IH]; intros ts tw; [reflexivity|].
  cbn [score_loop].
  destruct (total_checks c >? 0).
  - destruct (category_score c) as [s|e]; [|reflexivity].
    destruct (float_of_int (weight c)) as [w|e]; [|reflexivity].
    specialize (IH (fadd ts (fmul s w)) (tw + weight c)).
    destruct (score_loop d (fadd ts (fmul s w)) (tw + weight c)) as [d'' r].
    cbn [fst map snd] in *. now rewrite IH.
  - specialize (IH ts tw). destruct (score_loop d ts tw) as [d'' r].
    cbn [fst map snd] in *. now rewrite IH.
Qed.

(** X3. The scoring step of [validate_all] changes nothing but the stored
    scores: keys, order, counters, weights and outcomes stay as they were,
    and scoring the dictionary it leaves gives the same dictionary and the
    same result again, also when it raised. *)
Theorem scoring_changes_scores_only_and_repeats cfg d :
  map (fun e => (fst e, without_score (snd e))) (fst (calculate cfg d))
  = map (fun e => (fst e, without_score (snd e))) d
  /\ calculate cfg (fst (calculate cfg d)) = calculate cfg d.
Proof.
  unfold calculate. split.
  - pose proof (score_loop_keeps d f0 0) as H.
    now destruct (score_loop d f0 0).
  - pose proof (score_loop_again d f0 0) as H.
    destruct (score_loop d f0 0) as [d' r]. cbn [fst] in *.
    now rewrite H.
Qed.

(** X4. When the thresholds of the bands are integers listed in
    descending order, the grade is that of the band with the highest
    threshold that the score reaches: no band that the score reaches has a
    threshold above the selected one. *)
Theorem grade_is_highest_band_reached bands overall
    (Hdesc : descending (map snd bands)) :
  forall g t,
    In (g, t) bands -> ge overall (PyInt t) = true ->
    exists before t0 rest,
      bands = before ++ (determine_grade (int_bands bands) overall, t0) :: rest
      /\ ge overall (PyInt t0) = true
      /\ t <= t0
      /\ Forall (fun b => ge overall (PyInt (snd b)) = false) before.
Proof.
  induction bands as [|[g0 t0] bands IH]; intros g t Hin Hge; [contradiction|].
  destruct Hdesc as [Hle Hdesc]. cbn [int_bands map determine_grade fst snd].
  destruct (ge overall (PyInt t0)) eqn:E.
  - exists [], t0, bands. repeat split; auto.
    destruct Hin as [[= _ <-]|Hin]; [lia|].
    rewrite Forall_forall in Hle. apply Hle.
    apply (in_map snd) in Hin. exact Hin.
  - destruct Hin as [[= _ <-]|Hin]; [congruence|].
    destruct (IH Hdesc g t Hin Hge) as (before & t1 & rest & Hb & H1 & H2 & H3).
    exists ((g0, t0) :: before), t1, rest.
    repeat split; auto. simpl. f_equal. exact Hb.
Qed.

(** X4 on the bands A 95, B 80, C 60 at the score 82, which reaches C. *)
Lemma grade_is_highest_band_reached_witness :
  descending (map snd example_int_bands) /\
  In ("C", 60) example_int_bands /\
  ge (PyFloat (nearest 82)) (PyInt 60) = true /\
  exists before t0 rest,
    example_int_bands
    = before
      ++ (determine_grade (int_bands example_int_bands) (PyFloat (nearest 82)),
          t0) :: rest
    /\ ge (PyFloat (nearest 82)) (PyInt t0) = true
    /\ 60 <= t0
    /\ Forall (fun b => ge (PyFloat (nearest 82)) (PyInt (snd b)) = false)
              before.
Proof.
  assert (Hd : descending (map snd example_int_bands)).
  { simpl. repeat split; repeat constructor; lia. }
  assert (Hin : In ("C", 60) example_int_bands) by (simpl; auto).
  assert (Hge : ge (PyFloat (nearest 82)) (PyInt 60) = true) by reflexivity.
  split; [exact Hd|]. split; [exact Hin|]. split; [exact Hge|].
  exact (grade_is_highest_band_reached example_int_bands
           (PyFloat (nearest 82)) Hd "C" 60 Hin Hge).
Defined.

(** ** Reading files *)

Lemma read_file_spec root p s :
  _read_file root p s
  = (Ok (readable_text root p),
     mkState (st_results s) (st_reads s ++ read_log root p)).
Proof.
  unfold _read_file, readable_text, read_log, _file_exists.
  destruct (lookup (parts p) (Dir root)) as [n|].
  - unfold bind, log_read. cbn.
    destruct n as [[t|lossy|]|es]; reflexivity.
  - cbn. rewrite app_nil_r. now destruct s.
Qed.



(** ** Commands with a known trace *)

Section Yields.

Variable cfg : config.

Local Abbreviation yields := (yields cfg).

Lemma yields_ret {A} (a : A) : yields (ret a) (Ok a) [] [].
Proof. intros s. cbn. now rewrite after_nil. Qed.

Lemma yields_raise {A} (e : exn) : yields (@raise A e) (Raise e) [] [].
Proof. intros s. cbn. now rewrite after_nil. Qed.

Lemma yields_bind {A B} (m : M A) (k : A -> M B) a r rs ps rs' ps' :
  yields m (Ok a) rs ps -> yields (k a) r rs' ps' ->
  yields (bind m k) r (rs ++ rs') (ps ++ ps').
Proof.
  intros Hm Hk s. unfold bind. now rewrite Hm, Hk, after_after.
Qed.

Lemma yields_bind_raise {A B} (m : M A) (k : A -> M B) e rs ps :
  yields m (Raise e) rs ps -> yields (bind m k) (Raise e) rs ps.
Proof. intros Hm s. unfold bind. now rewrite Hm. Qed.

Lemma yields_add_result r : yields (add_result cfg r) (Ok tt) [r] [].
Proof. intros s. unfold after. cbn. now rewrite app_nil_r. Qed.

Lemma yields_log_read p : yields (log_read p) (Ok tt) [] [path_str p].
Proof. intros s. reflexivity. Qed.

Lemma yields_read_file root p :
  yields (_read_file root p) (Ok (readable_text root p)) [] (read_log root p).
Proof. intros s. apply read_file_spec. Qed.

Lemma yields_check_file_contains root p pattern :
  yields (_check_file_contains root p pattern)
    (Ok (text_contains root p pattern)) [] (read_log root p).
Proof.
  intros s. unfold _check_file_contains, bind. rewrite read_file_spec.
  unfold text_contains, after. cbn.
  now destruct (readable_text root p).
Qed.

Lemma yields_for_each {A} (l : list A) (body : A -> M unit) f g :
  (forall x, In x l -> yields (body x) (Ok tt) (f x) (g x)) ->
  yields (for_each l body) (Ok tt) (flat_map f l) (flat_map g l).
Proof.
  induction l as [|x l IH]; intros H; simpl.
  - apply yields_ret.
  - eapply yields_bind; [apply H; now left|].
    apply IH. intros y Hy. apply H. now right.
Qed.

Lemma yields_when (c : bool) (m : M unit) rs ps :
  (c = true -> yields m (Ok tt) rs ps) ->
  yields (when c m) (Ok tt) (if c then rs else []) (if c then ps else []).
Proof. destruct c; simpl; intros H; [now apply H|apply yields_ret]. Qed.

Lemma yields_if {A} (c : bool) (m1 m2 : M A) r rs1 rs2 ps1 ps2 :
  (c = true -> yields m1 r rs1 ps1) ->
  (c = false -> yields m2 r rs2 ps2) ->
  yields (if c then m1 else m2) r
    (if c then rs1 else rs2) (if c then ps1 else ps2).
Proof. destruct c; auto. Qed.

Lemma yields_if_ok {A} (c : bool) (m1 m2 : M A) a1 a2 rs1 rs2 ps1 ps2 :
  (c = true -> yields m1 (Ok a1) rs1 ps1) ->
  (c = false -> yields m2 (Ok a2) rs2 ps2) ->
  yields (if c then m1 else m2) (Ok (if c then a1 else a2))
    (if c then rs1 else rs2) (if c then ps1 else ps2).
Proof. destruct c; auto. Qed.

Lemma yields_match_option {X A} (o : option X) (m1 : X -> M A) (m2 : M A)
    r rs1 rs2 ps1 ps2 :
  (forall x, o = Some x -> yields (m1 x) r (rs1 x) (ps1 x)) ->
  (o = None -> yields m2 r rs2 ps2) ->
  yields (match o with Some x => m1 x | None => m2 end) r
    (match o with Some x => rs1 x | None => rs2 end)
    (match o with Some x => ps1 x | None => ps2 end).
Proof. destruct o; auto. Qed.

Lemma yields_contains_opt_some pattern t :
  yields (contains_opt pattern (Some t)) (Ok (PyStr.contains pattern t)) [] [].
Proof. apply yields_ret. Qed.

Lemma yields_contains_opt_none pattern :
  yields (contains_opt pattern None) (Raise TypeError) [] [].
Proof. apply yields_raise. Qed.

Lemma yields_for_each_raise {A} (x : A) (l : list A) (body : A -> M unit)
    e rs ps :
  yields (body x) (Raise e) rs ps ->
  yields (for_each (x :: l) body) (Raise e) rs ps.
Proof. intros H. simpl. now apply yields_bind_raise. Qed.

End Yields.


(** ** The evaluators, one by one *)

Ltac yields_step :=
  cbv beta iota;
  lazymatch goal with
  | |- yields _ (ret _) _ _ _ => eapply yields_ret
  | |- yields _ (add_result _ _) _ _ _ => eapply yields_add_result
  | |- yields _ (_check_file_contains _ _ _) _ _ _ =>
      eapply yields_check_file_contains
  | |- yields _ (_read_file _ _) _ _ _ => eapply yields_read_file
  | |- yields _ (contains_opt _ (Some _)) _ _ _ =>
      eapply yields_contains_opt_some
  | |- yields _ (when _ _) _ _ _ => eapply yields_when; intros
  | |- yields _ (for_each _ _) _ _ _ => eapply yields_for_each; intros
  | |- yields _ (bind _ _) _ _ _ => eapply yields_bind
  | |- yields _ (if _ then _ else _) _ _ _ =>
      first [eapply yields_if_ok | eapply yields_if]; intros
  | |- yields _ (match _ with Some _ => _ | None => _ end) _ _ _ =>
      eapply yields_match_option; intros
  end.

Lemma map_flat_map_single {A B C} (g : B -> C) (h : A -> B) (l : list A) :
  map g (flat_map (fun x => [h x]) l) = map (fun x => g (h x)) l.
Proof. induction l; simpl; congruence. Qed.

Lemma Forall_flat_map_single {A B} (P : B -> Prop) (h : A -> B) (l : list A) :
  (forall x, P (h x)) -> Forall P (flat_map (fun x => [h x]) l).
Proof. intros H. induction l; simpl; constructor; auto. Qed.

(** Closes [Forall P rs] for a synthesized trace [rs] whose outcomes all
    satisfy [P] by computation. *)
Ltac trace_forall :=
  cbn [app];
  repeat first
    [ apply Forall_nil
    | apply Forall_app; split
    | apply Forall_flat_map_single; intros; reflexivity
    | apply Forall_cons; [reflexivity|]
    | match goal with
      | |- Forall _ (if ?c then _ else _) => destruct c
      | |- Forall _ (match ?o with Some _ => _ | None => _ end) => destruct o
      end ].







Ltac names_by_cases :=
  cbv zeta;
  repeat (cbn [negb andb orb app map check_name];
          rewrite ?map_app, ?map_flat_map_single, ?app_nil_r;
          try reflexivity;
          match goal with
          | |- context [negb ?c] => destruct c eqn:?
          | |- context [if ?c then _ else _] => destruct c eqn:?
          | |- context [match ?o with Some _ => _ | None => _ end] =>
              destruct o eqn:?
          end).







Section YieldsMore.
Variable cfg : config.
Local Abbreviation yields := (yields cfg).

Lemma yields_read_file_as root p o :
  readable_text root p = o ->
  yields (_read_file root p) (Ok o) [] (read_log root p).
Proof. intros <-. apply yields_read_file. Qed.

Lemma yields_when_true (m : M unit) r rs ps :
  yields m r rs ps -> yields (when true m) r rs ps.
Proof. auto. Qed.

End YieldsMore.

Lemma if_same {A} (c : bool) (a : A) : (if c then a else a) = a.
Proof. now destruct c. Qed.

Lemma read_log_exists root p :
  _file_exists root p = true -> read_log root p = [path_str (parts p)].
Proof. unfold read_log. now intros ->. Qed.

Ltac yields_step_reading Hrt :=
  first [ lazymatch goal with
          | |- yields _ (_read_file _ _) _ _ _ =>
              eapply yields_read_file_as; exact Hrt
          end
        | yields_step ].

Ltac yields_abort Hrt :=
  eapply yields_bind; [eapply yields_add_result|]; cbv beta;
  try (lazymatch goal with
       | |- yields _ (bind (when _ _) _) _ _ _ => eapply yields_bind_raise
       end);
  eapply yields_when_true;
  eapply yields_bind; [eapply yields_read_file_as; exact Hrt|]; cbv beta;
  eapply yields_for_each_raise;
  repeat (lazymatch goal with
          | |- yields _ (bind _ _) _ _ _ => eapply yields_bind_raise
          end);
  apply yields_contains_opt_none.




Lemma git_trace cfg root :
  let aborts :=
    git_enabled (git cfg) && unreadable root ".gitignore"
    && nonempty (gitignore_must_include (git cfg)) in
  exists rs ps,
    yields cfg (validate_git cfg root)
      (if aborts then Raise TypeError else Ok tt) rs ps /\
    Forall (fun r => category r = "git") rs /\
    map check_name rs =
      (if aborts then ["gitignore_exists"]
       else if git_enabled (git cfg) then
         "gitignore_exists"
         :: (if _file_exists root ".gitignore" then
               map (fun entry =>
                      "gitignore_has_"
                      ++ PyStr.replace "." "_" (PyStr.replace "/" "_" entry))%string
                   (gitignore_must_include (git cfg))
             else [])
       else []) /\
    (aborts = true ->
     Forall (fun r => passed r = true) rs /\ ps = [".gitignore"]).
Proof.
  intros aborts. subst aborts.
  unfold unreadable, validate_git. cbv zeta.
  destruct (git_enabled (git cfg)) eqn:Hen; cbn [negb andb].
  2:{ exists [], []. split; [apply yields_ret|].
      repeat split; auto; discriminate. }
  destruct (_file_exists root ".gitignore") eqn:Hex; cbn [andb].
  2:{ cbn [when]. do 2 eexists. split; [repeat yields_step|].
      split; [trace_forall|]. split; [names_by_cases|discriminate]. }
  destruct (readable_text root ".gitignore") as [t|] eqn:Hrt.
  { do 2 eexists. split; [repeat yields_step_reading Hrt|].
    erewrite flat_map_ext;
      [|intros x; rewrite if_same; cbn [app]; reflexivity].
    split; [trace_forall|]. split; [names_by_cases|discriminate]. }
  destruct (gitignore_must_include (git cfg)) as [|entry entries]
    eqn:Hsec; cbn [andb nonempty].
  { cbn [for_each]. do 2 eexists. split; [repeat yields_step_reading Hrt|].
    split; [trace_forall|]. split; [names_by_cases|discriminate]. }
  do 2 eexists. split; [yields_abort Hrt|].
  rewrite (read_log_exists _ _ Hex).
  repeat split; repeat constructor.
Qed.

(** X10. [validate_git] raises in exactly one situation: it is enabled,
    [.gitignore] exists but its text cannot be had, and some entry must
    be included. The exception is then [TypeError], raised after
    [gitignore_exists] was recorded as passed and [.gitignore] was read,
    and before anything else. In every other situation it returns, having
    recorded [gitignore_exists] and, if [.gitignore] exists, one
    [gitignore_has_] check per entry, in this order. *)
Theorem git_raises_exactly_on_unreadable_gitignore cfg root s :
  let aborts :=
    git_enabled (git cfg) && unreadable root ".gitignore"
    && nonempty (gitignore_must_include (git cfg)) in
  exists rs ps,
    validate_git cfg root s
    = ((if aborts then Raise TypeError else Ok tt), after cfg s rs ps) /\
    Forall (fun r => category r = "git") rs /\
    map check_name rs =
      (if aborts then ["gitignore_exists"]
       else if git_enabled (git cfg) then
         "gitignore_exists"
         :: (if _file_exists root ".gitignore" then
               map (fun entry =>
                      "gitignore_has_"
                      ++ PyStr.replace "." "_" (PyStr.replace "/" "_" entry))%string
                   (gitignore_must_include (git cfg))
             else [])
       else []) /\
    (aborts = true ->
     Forall (fun r => passed r = true) rs /\ ps = [".gitignore"]).
Proof.
  destruct (git_trace cfg root) as (rs & ps & Hy & H).
  exists rs, ps. split; [apply Hy|exact H].
Qed.

(** *** What the recursive listing reaches *)







Lemma filter_nil {A} (p : A -> bool) l x :
  filter p l = [] -> In x l -> p x = false.
Proof.
  intros H Hin. destruct (p x) eqn:Hp; [|reflexivity].
  assert (Hx : In x (filter p l)) by (apply filter_In; now split).
  rewrite H in Hx. destruct Hx.
Qed.




(** *** The migration scan *)

Section MigrationScan.
Variable cfg : config.
Local Abbreviation yields := (yields cfg).





End MigrationScan.



(** *** The secret scan *)



Section SecretScanTrace.
Variable cfg : config.
Local Abbreviation yields := (yields cfg).








End SecretScanTrace.




(** ** The evaluators in sequence *)

Lemma mem_In k l : PyStr.mem k l = true <-> In k l.
Proof.
  unfold PyStr.mem. rewrite existsb_exists. split.
  - intros (x & Hx & E). apply String.eqb_eq in E. now subst.
  - intros H. exists k. split; [exact H|apply String.eqb_refl].
Qed.

Lemma first_occurrences_seen seen l l' :
  Forall (fun c => In c seen) l ->
  first_occurrences seen (l ++ l') = first_occurrences seen l'.
Proof.
  induction 1 as [|c l Hc _ IH]; simpl; [reflexivity|].
  apply mem_In in Hc. now rewrite Hc.
Qed.

Lemma in_blocks_categories ks : forall rs,
  in_blocks ks rs -> Forall (fun r => In (category r) ks) rs.
Proof.
  induction ks as [|k ks IH]; intros rs; simpl.
  - intros ->. constructor.
  - intros (rs1 & rs2 & -> & H1 & H2). apply Forall_app. split.
    + eapply Forall_impl; [|exact H1]. intros r <-. now left.
    + eapply Forall_impl; [|apply IH, H2]. intros r Hr. now right.
Qed.

Lemma existsb_of_category_false k rs :
  Forall (fun r => category r <> k) rs ->
  existsb (of_category k) rs = false.
Proof.
  induction 1 as [|r rs Hr _ IH]; simpl; [reflexivity|].
  unfold of_category at 1. apply String.eqb_neq in Hr. now rewrite Hr.
Qed.

Lemma first_occurrences_blocks ks : forall seen rs,
  in_blocks ks rs -> NoDup ks ->
  (forall k, In k seen -> ~ In k ks) ->
  first_occurrences seen (map category rs)
  = filter (fun k => existsb (of_category k) rs) ks.
Proof.
  induction ks as [|k ks IH]; intros seen rs; simpl.
  - intros -> _ _. reflexivity.
  - intros (rs1 & rs2 & -> & H1 & H2) Hnd Hseen.
    inversion Hnd as [|? ? Hk Hnd']; subst.
    pose proof (in_blocks_categories _ _ H2) as Hcats.
    assert (Hrs2 : existsb (of_category k) rs2 = false).
    { apply existsb_of_category_false.
      eapply Forall_impl; [|exact Hcats]. intros r Hr E.
      apply Hk. now rewrite <- E. }
    assert (Hext : filter (fun k' => existsb (of_category k') (rs1 ++ rs2)) ks
                   = filter (fun k' => existsb (of_category k') rs2) ks).
    { apply filter_ext_in. intros k' Hk'. rewrite existsb_app.
      rewrite (existsb_of_category_false k' rs1); [reflexivity|].
      eapply Forall_impl; [|exact H1]. intros r Hr E.
      apply Hk. now rewrite <- Hr, E. }
    rewrite existsb_app, Hrs2, orb_false_r, Hext, map_app.
    destruct rs1 as [|r rs1]; simpl.
    + apply IH; auto. intros k' Hk' Hin. apply (Hseen k' Hk'). now right.
    + inversion H1 as [|? ? Hr H1']; subst.
      unfold of_category at 1. rewrite String.eqb_refl. simpl.
      destruct (PyStr.mem (category r) seen) eqn:Hm.
      { apply mem_In in Hm. exfalso. apply (Hseen _ Hm). now left. }
      f_equal. rewrite first_occurrences_seen.
      * apply IH; auto. intros k' Hk' Hin.
        apply in_app_or in Hk' as [Hk'|[<-|[]]]; [|contradiction].
        apply (Hseen k' Hk'). now right.
      * apply Forall_forall. intros c Hc. apply in_map_iff in Hc as (r' & <- & Hr').
        rewrite Forall_forall in H1'. rewrite (H1' r' Hr').
        apply in_or_app. right. now left.
Qed.

Lemma dict_mem_record_all cfg rs k :
  dict_mem k (record_all cfg rs []) = existsb (of_category k) rs.
Proof.
  unfold dict_mem. rewrite record_all_get. simpl.
  induction rs as [|r rs IH]; simpl; [reflexivity|].
  destruct (of_category k r); simpl; [reflexivity|exact IH].
Qed.

Section Blocks.
Variable cfg : config.

Local Abbreviation records_blocks := (records_blocks cfg).

Lemma records_blocks_one k {A} (m : M A) :
  (forall s, exists rs ps,
     Forall (fun r => category r = k
                      /\ category_enabled cfg k = true) rs /\
     snd (m s) = after cfg s rs ps) ->
  records_blocks [k] m.
Proof.
  intros H s. destruct (H s) as (rs & ps & HP & Hs).
  exists rs, ps. split; [exact Hs|]. split.
  - exists rs, []. rewrite app_nil_r. split; [reflexivity|].
    split; [|reflexivity]. eapply Forall_impl; [|exact HP]. now intros r [].
  - eapply Forall_impl; [|exact HP]. now intros r [-> ?].
Qed.

Lemma in_blocks_nil ks : in_blocks ks [].
Proof.
  induction ks as [|k ks IH]; simpl; [reflexivity|].
  exists [], []. auto.
Qed.

Lemma records_blocks_seq k ks (m : M unit) (m' : M unit) :
  records_blocks [k] m -> records_blocks ks m' ->
  records_blocks (k :: ks) (m ;; m').
Proof.
  intros H1 H2 s. unfold bind.
  destruct (H1 s) as (rs1 & ps1 & Hs1 & (b1 & b2 & -> & Hb1 & ->) & He1).
  rewrite app_nil_r in *.
  destruct (m s) as [[[]|e] s1]; simpl in Hs1; subst s1.
  - destruct (H2 (after cfg s b1 ps1)) as (rs2 & ps2 & Hs2 & Hb2 & He2).
    exists (b1 ++ rs2)%list, (ps1 ++ ps2)%list. rewrite Hs2, after_after.
    split; [reflexivity|]. split.
    + exists b1, rs2. auto.
    + apply Forall_app. auto.
  - exists b1, ps1. split; [reflexivity|]. split; [|exact He1].
    exists b1, []. rewrite app_nil_r. split; [reflexivity|].
    split; [exact Hb1|apply in_blocks_nil].
Qed.

End Blocks.

Ltac one_block H :=
  apply records_blocks_one; intros s;
  let rs := fresh "rs" in
  let ps := fresh "ps" in
  let HP := fresh "HP" in
  let Hs := fresh "Hs" in
  destruct (related_left _ [] _ _ _ _ s H) as (rs & ps & HP & _ & Hs);
  exists rs, ps; split; [|exact Hs];
  eapply Forall_impl; [|exact HP]; cbv beta; unfold security_outcome;
  intuition.

Lemma run_evaluators_blocks cfg root :
  records_blocks cfg evaluation_order (run_evaluators cfg root).
Proof.
  unfold run_evaluators, evaluation_order.
  repeat apply records_blocks_seq.
  - one_block (related_hooks cfg [] root).
  - one_block (related_documentation cfg [] root).
  - one_block (related_testing cfg [] root).
  - one_block (related_quality_gates cfg [] root).
  - one_block (related_git cfg [] root).
  - one_block (related_security cfg [] root).
  - one_block (related_naming_conventions cfg [] root).
  - one_block (related_migrations cfg [] root).
Qed.

Lemma calculate_keys cfg d : dict_keys (fst (calculate cfg d)) = dict_keys d.
Proof.
  unfold calculate. pose proof (score_loop_keeps d f0 0) as H.
  destruct (score_loop d f0 0) as [d' r]. cbn [fst] in *.
  apply (f_equal (map fst)) in H. rewrite !map_map in H. exact H.
Qed.

Lemma dict_mem_same_keys {V W} (d : list (string * V)) (d' : list (string * W)) k :
  dict_keys d = dict_keys d' -> dict_mem k d = dict_mem k d'.
Proof. intros H. now rewrite !dict_mem_keys, H. Qed.

Lemma evaluation_order_NoDup : NoDup evaluation_order.
Proof.
  unfold evaluation_order.
  repeat (constructor; [simpl; intuition discriminate|]). constructor.
Qed.

(** X14. Whatever way [validate_all] ends, the categories of
    [self.results] stand in the order in which the evaluators run (hooks,
    documentation, testing, quality gates, git, security, naming
    conventions, migrations), each at most once, and only categories
    whose evaluator is enabled are among them. *)
Theorem report_categories_follow_evaluation_order cfg root :
  let d := st_results (snd (validate_all cfg root initial_state)) in
  dict_keys d = filter (fun k => dict_mem k d) evaluation_order /\
  forall k, In k (dict_keys d) -> category_enabled cfg k = true.
Proof.
  intros d.
  destruct (run_evaluators_blocks cfg root initial_state)
    as (rs & ps & Hs & Hb & Hen).
  assert (Hkeys : dict_keys d = dict_keys (record_all cfg rs [])).
  { subst d. unfold validate_all, bind.
    destruct (run_evaluators cfg root initial_state) as [[[]|e] s1];
      simpl in Hs; subst s1; [|reflexivity].
    cbn [after st_results initial_state].
    pose proof (calculate_keys cfg (record_all cfg rs [])) as Hk.
    destruct (calculate cfg (record_all cfg rs [])) as [d' r]. exact Hk. }
  split.
  - rewrite Hkeys, record_all_keys. cbn [dict_keys map app].
    rewrite (first_occurrences_blocks evaluation_order [] rs Hb
               evaluation_order_NoDup) by (intros k []).
    apply filter_ext. intros k.
    now rewrite (dict_mem_same_keys _ _ k Hkeys), dict_mem_record_all.
  - intros k Hk. rewrite Hkeys in Hk.
    apply record_all_keys_category in Hk as (r & Hr & <-).
    rewrite Forall_forall in Hen. now apply Hen.
Qed.

(** ** Runs without a positive weight sum *)

(** X15. When every evaluator is switched off, [validate_all] records
    nothing and reads nothing, and returns the [int] 0 as the overall
    score with the grade that 0 reaches; [main] with
    [--report-format json] prints a report without categories and exits
    with 2. *)
Theorem run_with_every_evaluator_disabled_scores_zero cfg root :
  existsb (category_enabled cfg) evaluation_order = false ->
  validate_all cfg root initial_state
  = (Ok (PyInt 0, determine_grade (compliance_grading cfg) (PyInt 0)),
     initial_state)
  /\ main_json cfg root
     = Ok ({| j_overall_score := PyInt 0;
              j_grade := determine_grade (compliance_grading cfg) (PyInt 0);
              j_categories := [] |},
           2).
Proof.
  intros H.
  assert (Hrun : validate_all cfg root initial_state
                 = (Ok (PyInt 0,
                        determine_grade (compliance_grading cfg) (PyInt 0)),
                    initial_state)).
  { unfold evaluation_order in H. cbn [existsb] in H.
    repeat (apply orb_false_iff in H as [? H]).
    unfold category_enabled in *. cbn in * |-.
    unfold validate_all, run_evaluators, bind,
      validate_hooks, validate_documentation, validate_testing,
      validate_quality_gates, validate_git, validate_security,
      validate_naming_conventions, validate_migrations.
    repeat match goal with
           | E : ?flag = false |- _ => rewrite E; clear E
           end.
    reflexivity. }
  split; [exact Hrun|]. unfold main_json. rewrite Hrun. reflexivity.
Qed.

(** X15 on the example rules with every evaluator switched off. *)
Lemma run_with_every_evaluator_disabled_scores_zero_witness :
  validate_all disabled_config [] initial_state
  = (Ok (PyInt 0, "F"), initial_state)
  /\ main_json disabled_config []
     = Ok ({| j_overall_score := PyInt 0; j_grade := "F";
              j_categories := [] |},
           2).
Proof.
  apply (run_with_every_evaluator_disabled_scores_zero disabled_config []).
  reflexivity.
Defined.

(** X16. When no conversion overflows and the weights of the categories
    that recorded an outcome sum to zero or less, the scoring step
    returns the [int] 0 as the overall score whatever the outcomes are,
    also when every check passed. The categories still get their own
    scores. *)
Theorem weight_sum_not_positive_scores_zero cfg d :
  conversions_ok d = true ->
  zsum (map weight (included_categories d)) <= 0 ->
  calculate cfg d
  = (scored_dict d,
     Ok (PyInt 0, determine_grade (compliance_grading cfg) (PyInt 0))).
Proof.
  intros Hok Hw.
  rewrite (calculate_spec cfg d Hok). unfold overall_score_of.
  destruct (zsum (map weight (included_categories d)) >? 0) eqn:E;
    [|reflexivity].
  apply Z.gtb_lt in E. lia.
Qed.

(** X16 on one passing outcome recorded with the weight 0: the category
    scores 100 and the overall score is 0. *)
Lemma weight_sum_not_positive_scores_zero_witness :
  exists hooks_cat,
    calculate example_config passed_with_weight_zero
    = ([("hooks", hooks_cat)], Ok (PyInt 0, "F")) /\
    score hooks_cat = nearest 100 /\ checks_passed hooks_cat = 1.
Proof.
  eexists.
  rewrite (weight_sum_not_positive_scores_zero example_config
             passed_with_weight_zero);
    [|vm_compute; reflexivity|vm_compute; discriminate].
  split; [vm_compute; reflexivity|]. split; vm_compute; reflexivity.
Defined.

(** ** The reports *)

Lemma scored_fields c :
  name (scored c) = name c /\ weight (scored c) = weight c /\
  checks_passed (scored c) = checks_passed c /\
  checks_failed (scored c) = checks_failed c /\
  checks_warned (scored c) = checks_warned c /\
  results (scored c) = results c.
Proof. unfold scored. destruct (included c); repeat split. Qed.

Lemma recorded_tallied cfg rs :
  Forall (fun e => tallied (snd e) /\ results (snd e) <> []
                   /\ results (snd e) = filter (of_category (fst e)) rs)
         (scored_dict (record_all cfg rs [])).
Proof.
  unfold scored_dict. apply Forall_forall. intros e He.
  apply in_map_iff in He as ([k c] & <- & Hin). cbn [fst snd].
  destruct (scored_fields c) as (_ & _ & Hp & Hf & Hw & Hr).
  pose proof (record_all_entry cfg rs k c Hin) as [_ Hc].
  pose proof (recorded_entry cfg rs k c Hin)
    as (Hne & _ & _ & _ & Hp' & Hf' & Hw' & _).
  unfold tallied. rewrite Hp, Hf, Hw, Hr. repeat split; auto.
  rewrite Hc.
  now destruct (tally_all_fields (filter (of_category k) rs)
                  (new_CategoryResult k (configured_weight cfg k)))
    as (_ & _ & _ & -> & _).
Qed.

Lemma count_nonneg f rs : 0 <= count f rs.
Proof. unfold count. lia. Qed.

Lemma count_zero f rs :
  count f rs = 0 <-> Forall (fun r => f r = false) rs.
Proof.
  unfold count. split.
  - intros H. apply Forall_forall. intros r Hr.
    eapply filter_nil; [|exact Hr].
    destruct (filter f rs); [reflexivity|simpl in H; lia].
  - intros H. induction H as [|r rs Hr _ IH]; [reflexivity|].
    simpl. now rewrite Hr.
Qed.

(** X17. In the reports of a finished run the status of a category is
    [Pass] or [Fail], never the third alternative [Warning] of the
    expression; it is [Pass] exactly when the category has no failing
    critical outcome, so failing warnings alone leave it at [Pass]. *)
Theorem category_status_is_pass_or_fail cfg rs :
  Forall (fun e =>
            status (snd e) <> mark_warning /\
            (status (snd e) = mark_pass <->
             Forall (fun r => failing_with "critical" r = false)
                    (results (snd e))))
         (scored_dict (record_all cfg rs [])).
Proof.
  eapply Forall_impl; [|apply recorded_tallied].
  intros [k c] ((_ & Hf & _) & _). cbn [snd] in *. unfold status.
  rewrite <- count_zero, <- Hf.
  pose proof (count_nonneg (failing_with "critical") (results c)) as Hge.
  rewrite <- Hf in Hge.
  destruct (checks_failed c =? 0) eqn:E0.
  - apply Z.eqb_eq in E0. split; [discriminate|]. now split.
  - apply Z.eqb_neq in E0.
    destruct (checks_failed c >? 0) eqn:E1.
    + split; [discriminate|]. split; [discriminate|contradiction].
    + exfalso. rewrite Z.gtb_ltb in E1. apply Z.ltb_ge in E1. lia.
Qed.

Lemma count_app f l l' : count f (l ++ l') = count f l + count f l'.
Proof. unfold count. rewrite filter_app, length_app. lia. Qed.

Lemma results_tally r c : results (tally r c) = results c ++ [r].
Proof.
  unfold tally. destruct (passed r); [reflexivity|].
  now destruct (String.eqb (severity r) "critical").
Qed.

Lemma count_all_adjust f r k d :
  dict_mem k d = true ->
  zsum (map (fun e => count f (results (snd e))) (dict_adjust (tally r) k d))
  = zsum (map (fun e => count f (results (snd e))) d) + count f [r].
Proof.
  unfold dict_mem.
  induction d as [|[k' c] d IH]; simpl; [discriminate|].
  destruct (String.eqb k k') eqn:E; simpl.
  - intros _. rewrite results_tally, count_app. lia.
  - intros H. rewrite IH by exact H. lia.
Qed.

Lemma zsum_app l l' : zsum (l ++ l') = zsum l + zsum l'.
Proof. unfold zsum. induction l; simpl; lia. Qed.

Lemma count_all_add_result f cfg r d :
  zsum (map (fun e => count f (results (snd e))) (_add_result cfg r d))
  = zsum (map (fun e => count f (results (snd e))) d) + count f [r].
Proof.
  unfold _add_result. destruct (dict_mem (category r) d) eqn:E.
  - now apply count_all_adjust.
  - rewrite count_all_adjust.
    + rewrite map_app, zsum_app.
      cbn [map snd new_CategoryResult results].
      change (count f []) with 0. unfold zsum at 2. cbn [fold_right]. lia.
    + unfold dict_mem in *.
      destruct (dict_get (category r) d) eqn:E'; [discriminate|].
      now rewrite (dict_get_snoc_absent _ _ _ E').
Qed.

Lemma count_all_record_all f cfg rs : forall d,
  zsum (map (fun e => count f (results (snd e))) (record_all cfg rs d))
  = zsum (map (fun e => count f (results (snd e))) d) + count f rs.
Proof.
  unfold record_all.
  induction rs as [|r rs IH]; intros d; simpl.
  - unfold count. simpl. lia.
  - rewrite IH, count_all_add_result.
    change (r :: rs) with ([r] ++ rs). rewrite count_app. lia.
Qed.

Lemma count_all_scored f cfg rs :
  zsum (map (fun e => count f (results (snd e)))
            (scored_dict (record_all cfg rs [])))
  = count f rs.
Proof.
  unfold scored_dict. rewrite map_map. cbn [snd].
  erewrite map_ext; [|intros e; rewrite scored_results; reflexivity].
  now rewrite count_all_record_all.
Qed.

Lemma zsum_map_ext_in {A} (g h : A -> Z) l :
  (forall x, In x l -> g x = h x) -> zsum (map g l) = zsum (map h l).
Proof. intros H. f_equal. now apply map_ext_in. Qed.

Lemma zsum_map_add {A} (g h : A -> Z) l :
  zsum (map (fun x => g x + h x) l) = zsum (map g l) + zsum (map h l).
Proof. unfold zsum. induction l; simpl; lia. Qed.

Lemma length_failures_with sev d :
  Z.of_nat (List.length (failures_with sev d))
  = zsum (map (fun e => count (failing_with sev) (results (snd e))) d).
Proof.
  unfold failures_with, count.
  induction d as [|e d IH]; simpl; [reflexivity|].
  rewrite length_app, length_map. lia.
Qed.

Lemma failing_not_critical_split rs :
  count (fun r => negb (passed r) && negb (is_critical r)) rs
  = count (failing_with "warning") rs + count failing_other rs.
Proof.
  unfold count, failing_with, failing_other, is_critical.
  induction rs as [|r rs IH]; [reflexivity|]. cbn [filter].
  destruct (passed r); cbn [negb andb]; [exact IH|].
  destruct (String.eqb (severity r) "warning") eqn:Ew.
  - assert (Ec : String.eqb (severity r) "critical" = false).
    { apply String.eqb_eq in Ew. now rewrite Ew. }
    rewrite Ec. cbn [negb andb List.length]. lia.
  - destruct (String.eqb (severity r) "critical");
      cbn [negb andb List.length]; lia.
Qed.

(** X18. The sums of the executive summary count the recorded outcomes:
    the total is the number of outcomes recorded, [Passed] the number of
    passing ones, and [Failed] the number of critical issues that the
    reports list. [Warnings] is the number of listed warnings plus the
    number of failing outcomes of any other severity (such as [info]),
    which are counted but listed nowhere. *)
Theorem summary_totals_count_recorded_outcomes cfg rs :
  let d := scored_dict (record_all cfg rs []) in
  total_of_checks d = Z.of_nat (List.length rs) /\
  total_passed d = count passed rs /\
  total_failed d = Z.of_nat (List.length (critical_failures d)) /\
  total_failed d = count (failing_with "critical") rs /\
  total_warned d
  = Z.of_nat (List.length (warnings d)) + count failing_other rs /\
  total_of_checks d = total_passed d + total_failed d + total_warned d.
Proof.
  intros d. pose proof (recorded_tallied cfg rs) as Ht. fold d in Ht.
  rewrite Forall_forall in Ht.
  assert (Hp : total_passed d = count passed rs).
  { unfold total_passed. rewrite <- (count_all_scored passed cfg rs).
    apply zsum_map_ext_in. intros e He. now apply Ht in He as ((-> & _) & _). }
  assert (Hf : total_failed d = count (failing_with "critical") rs).
  { unfold total_failed.
    rewrite <- (count_all_scored (failing_with "critical") cfg rs).
    apply zsum_map_ext_in. intros e He.
    now apply Ht in He as ((_ & -> & _) & _). }
  assert (Hw : total_warned d
               = count (fun r => negb (passed r) && negb (is_critical r)) rs).
  { unfold total_warned.
    rewrite <- (count_all_scored _ cfg rs).
    apply zsum_map_ext_in. intros e He.
    now apply Ht in He as ((_ & _ & ->) & _). }
  assert (Hsum : total_of_checks d
                 = total_passed d + total_failed d + total_warned d).
  { unfold total_of_checks, total_passed, total_failed, total_warned,
      total_checks. now rewrite !zsum_map_add. }
  split; [|split; [exact Hp|split; [|split; [exact Hf|split; [|exact Hsum]]]]].
  - rewrite Hsum, Hp, Hf, Hw.
    pose proof (count_partition rs) as Hc.
    unfold failing_with, is_critical in *. exact Hc.
  - rewrite Hf. unfold critical_failures. rewrite length_failures_with.
    symmetry. apply count_all_scored.
  - rewrite Hw, failing_not_critical_split. f_equal.
    unfold warnings. rewrite length_failures_with.
    symmetry. apply count_all_scored.
Qed.

Lemma filter_filter_and {A} (f g : A -> bool) l :
  filter g (filter f l) = filter (fun x => f x && g x) l.
Proof.
  induction l as [|x l IH]; simpl; [reflexivity|].
  destruct (f x); simpl; [|exact IH]. destruct (g x); now rewrite IH.
Qed.

Lemma flat_map_ext_in {A B} (f g : A -> list B) l :
  (forall x, In x l -> f x = g x) -> flat_map f l = flat_map g l.
Proof.
  induction l as [|x l IH]; intros H; simpl; [reflexivity|].
  rewrite (H x) by now left. rewrite IH; [reflexivity|].
  intros y Hy. apply H. now right.
Qed.

Lemma flat_map_over_map {A B C} (f : B -> list C) (g : A -> B) l :
  flat_map f (map g l) = flat_map (fun x => f (g x)) l.
Proof. induction l as [|x l IH]; simpl; [reflexivity|]. now rewrite IH. Qed.

Lemma failures_with_recorded sev cfg rs :
  failures_with sev (scored_dict (record_all cfg rs []))
  = flat_map (fun k => map (fun r => (k, r))
                           (filter (fun r => of_category k r
                                             && failing_with sev r) rs))
             (dict_keys (record_all cfg rs [])).
Proof.
  pose proof (recorded_tallied cfg rs) as Ht. rewrite Forall_forall in Ht.
  unfold failures_with, dict_keys.
  rewrite flat_map_over_map.
  unfold scored_dict at 1. rewrite flat_map_over_map.
  apply flat_map_ext_in. intros e He. cbn [fst snd].
  assert (Hs : In (fst e, scored (snd e))
                  (scored_dict (record_all cfg rs [])))
    by (unfold scored_dict; apply in_map_iff; now exists e).
  apply Ht in Hs as (_ & _ & Hr). cbn [fst snd] in Hr.
  now rewrite Hr, filter_filter_and.
Qed.

(** X19. The lists of critical issues and of warnings of the reports
    hold every failing outcome of their severity exactly as recorded:
    grouped by category, the categories in the order of their first
    outcome, and within a category in recording order; the category named
    beside an outcome is the outcome's own. The console lists the first
    five critical issues and the markdown report the first ten warnings,
    and the number each announces after them is what is left. *)
Theorem failures_listed_by_category_in_recording_order cfg rs :
  let d := scored_dict (record_all cfg rs []) in
  (forall sev,
     failures_with sev d
     = flat_map (fun k => map (fun r => (k, r))
                              (filter (fun r => of_category k r
                                                && failing_with sev r) rs))
                (first_occurrences [] (map category rs))) /\
  Forall (fun p => fst p = category (snd p)) (critical_failures d) /\
  Forall (fun p => fst p = category (snd p)) (warnings d) /\
  (List.length (listed_critical d)
   + match more_critical d with Some n => n | None => 0 end
   = List.length (critical_failures d))%nat /\
  (List.length (listed_warnings d)
   + match more_warnings d with Some n => n | None => 0 end
   = List.length (warnings d))%nat.
Proof.
  intros d.
  assert (Hall : forall sev,
            failures_with sev d
            = flat_map (fun k => map (fun r => (k, r))
                                     (filter (fun r => of_category k r
                                                       && failing_with sev r)
                                             rs))
                       (first_occurrences [] (map category rs))).
  { intros sev. subst d. rewrite failures_with_recorded.
    now rewrite record_all_keys. }
  assert (Hown : forall sev,
            Forall (fun p => fst p = category (snd p)) (failures_with sev d)).
  { intros sev. rewrite Hall. apply Forall_forall. intros p Hp.
    apply in_flat_map in Hp as (k & _ & Hp).
    apply in_map_iff in Hp as (r & <- & Hr).
    apply filter_In in Hr as [_ Hr]. apply andb_true_iff in Hr as [Hr _].
    apply String.eqb_eq in Hr. cbn [fst snd]. now symmetry. }
  split; [exact Hall|]. split; [apply Hown|]. split; [apply Hown|].
  unfold listed_critical, more_critical, listed_warnings, more_warnings.
  split.
  - rewrite length_firstn, length_map.
    destruct (5 <? List.length (critical_failures d))%nat eqn:E.
    + apply Nat.ltb_lt in E. lia.
    + apply Nat.ltb_ge in E. lia.
  - rewrite length_firstn.
    destruct (10 <? List.length (warnings d))%nat eqn:E.
    + apply Nat.ltb_lt in E. lia.
    + apply Nat.ltb_ge in E. lia.
Qed.

Lemma lt_int_not_ge a n :
  is_nan a = false -> lt_int a n = negb (ge a (PyInt n)).
Proof.
  destruct a as [x|f]; simpl.
  - intros _. now rewrite Z.geb_leb, Z.ltb_antisym.
  - destruct f as [s|s| |s m e]; simpl; intros Hn.
    + now rewrite Z.geb_leb, Z.ltb_antisym.
    + now rewrite negb_involutive.
    + discriminate.
    + destruct (0 <=? e); now rewrite Z.geb_leb, Z.ltb_antisym.
Qed.

(** X20. The advice of the section [Next Steps] of the markdown report
    goes with the exit status of the validator's [main]: for a score that
    is a number, critical failures are to be addressed exactly when the
    status is 2, remaining warnings exactly when it is 1, and standards
    are to be maintained exactly when it is 0. For a score that is not a
    number the two part: the status is 2 and the advice is to maintain
    the current standards. *)
Theorem next_steps_go_with_exit_status :
  (forall overall_score,
     is_nan overall_score = false ->
     (next_steps overall_score = address_critical_failures
      <-> exit_status overall_score = 2) /\
     (next_steps overall_score = address_remaining_warnings
      <-> exit_status overall_score = 1) /\
     (next_steps overall_score = maintain_current_standards
      <-> exit_status overall_score = 0)) /\
  next_steps (PyFloat S754_nan) = maintain_current_standards /\
  exit_status (PyFloat S754_nan) = 2.
Proof.
  split; [|split; reflexivity].
  intros a Hn. unfold next_steps, exit_status.
  rewrite !(lt_int_not_ge a _ Hn).
  assert (Hz : forall x p, 0 <= p ->
                 (x >=? 95 * p) = true -> (x >=? 70 * p) = true).
  { intros x p Hp H. apply Z.geb_le in H. apply Z.geb_le. lia. }
  assert (H : ge a (PyInt 95) = true -> ge a (PyInt 70) = true).
  { destruct a as [x|f]; cbn [ge float_ge_int].
    - intros H. apply (Hz x 1) in H; [|lia].
      now rewrite Z.mul_1_r in H.
    - destruct f as [s|s| |s m e]; cbn [float_ge_int].
      + intros H. apply (Hz 0 1) in H; [|lia].
        now rewrite Z.mul_1_r in H.
      + auto.
      + auto.
      + destruct (0 <=? e).
        * intros H. apply (Hz _ 1) in H; [|lia].
          now rewrite Z.mul_1_r in H.
        * apply Hz. apply Z.pow_nonneg. lia. }
  destruct (ge a (PyInt 95)) eqn:E95.
  - rewrite (H eq_refl). cbn [negb]. repeat split; discriminate || reflexivity.
  - clear H. destruct (ge a (PyInt 70)); cbn [negb];
      repeat split; discriminate || reflexivity.
Qed.

(** ** The JSON report *)

Lemma outcomes_of_json k (rs1 rs2 : list ValidationResult) :
  Forall (fun r => category r = k) rs1 ->
  Forall (fun r => category r = k) rs2 ->
  map (fun r => {| j_check := check_name r; j_passed := passed r;
                   j_severity := severity r; j_message := message r;
                   j_details := details r |}) rs1
  = map (fun r => {| j_check := check_name r; j_passed := passed r;
                     j_severity := severity r; j_message := message r;
                     j_details := details r |}) rs2 ->
  rs1 = rs2.
Proof.
  intros H1. revert rs2.
  induction H1 as [|r1 rs1 Hr1 _ IH]; intros rs2 H2 Hm;
    destruct H2 as [|r2 rs2 Hr2 H2]; try discriminate; [reflexivity|].
  simpl in Hm. injection Hm as Hc Hp Hs Hmsg Hd Hrest.
  f_equal; [|now apply IH].
  destruct r1, r2; simpl in *. congruence.
Qed.

Lemma results_of_json (d1 d2 : results_dict) :
  Forall (fun e => name (snd e) = fst e
                   /\ Forall (fun r => category r = fst e) (results (snd e)))
         d1 ->
  Forall (fun e => name (snd e) = fst e
                   /\ Forall (fun r => category r = fst e) (results (snd e)))
         d2 ->
  forall o1 g1 o2 g2,
    j_categories (export_json d1 o1 g1) = j_categories (export_json d2 o2 g2) ->
    d1 = d2.
Proof.
  intros H1. revert d2.
  induction H1 as [|[k1 c1] d1 [Hn1 Hc1] _ IH]; intros d2 H2 o1 g1 o2 g2 Hm;
    destruct H2 as [|[k2 c2] d2 [Hn2 Hc2] H2]; try discriminate;
    [reflexivity|].
  cbn [export_json j_categories map fst snd] in Hm, Hn1, Hn2, Hc1, Hc2.
  injection Hm as Hk Hs Hw Hp Hf Hwa Hr Hrest.
  destruct Hk.
  pose proof (outcomes_of_json k1 _ _ Hc1 Hc2 Hr) as Hres.
  assert (Hc : c1 = c2) by (destruct c1, c2; simpl in *; congruence).
  subst c2. f_equal.
  apply (IH d2 H2 o1 g1 o2 g2). cbn [export_json j_categories]. exact Hrest.
Qed.

Lemma recorded_named cfg rs :
  Forall (fun e => name (snd e) = fst e
                   /\ Forall (fun r => category r = fst e) (results (snd e)))
         (scored_dict (record_all cfg rs [])).
Proof.
  pose proof (recorded_tallied cfg rs) as Ht.
  unfold scored_dict in *. rewrite Forall_forall in *. intros e He.
  pose proof (Ht e He) as (_ & _ & Hr).
  apply in_map_iff in He as ([k c] & <- & Hin). cbn [fst snd] in *.
  destruct (scored_fields c) as (Hn & _).
  apply recorded_entry in Hin as (_ & Hname & _).
  split; [now rewrite Hn|]. rewrite Hr. apply Forall_forall.
  intros r Hf. apply filter_In in Hf as [_ Hf]. now apply String.eqb_eq.
Qed.

(** X21. The JSON report loses nothing of a finished run: two runs with
    the same report have the same overall score and grade and the same
    [self.results], the names of the categories and the categories of
    the outcomes included, although the report writes neither. *)
Theorem json_report_determines_the_results cfg1 cfg2 rs1 rs2 o1 g1 o2 g2 :
  export_json (scored_dict (record_all cfg1 rs1 [])) o1 g1
  = export_json (scored_dict (record_all cfg2 rs2 [])) o2 g2 ->
  scored_dict (record_all cfg1 rs1 []) = scored_dict (record_all cfg2 rs2 [])
  /\ o1 = o2 /\ g1 = g2.
Proof.
  intros H. split.
  - eapply results_of_json; try apply recorded_named.
    now rewrite H.
  - unfold export_json in H. now injection H as -> ->.
Qed.

(** X21 on two recordings of one passing outcome under different weight
    tables that give [hooks] the same weight. *)
Lemma json_report_determines_the_results_witness :
  scored_dict passed_with_weight_zero
  = scored_dict
      (record_all
         (with_validation_categories [("hooks", Some 0); ("git", Some 3)]
            example_config)
         [mkValidationResult "hooks" "lefthook_config_exists" true "critical"
            "lefthook.yml configuration file" (Some "Found: lefthook.yml")]
         [])
  /\ PyInt 0 = PyInt 0 /\ "F" = "F".
Proof.
  apply (json_report_determines_the_results
           (with_validation_categories [("hooks", Some 0)] example_config)
           (with_validation_categories [("hooks", Some 0); ("git", Some 3)]
              example_config)).
  reflexivity.
Defined.

(** ** What the scans cover *)




(** ** Runs over a readable project *)

Section Completion.
Variable cfg : config.
Variable root : listing.
Local Abbreviation yields := (yields cfg).






End Completion.



(** ** The grade in the reports *)

Lemma determine_grade_cases bands overall :
  (exists t, In (determine_grade bands overall, t) bands) \/
  (determine_grade bands overall = "F" /\
   Forall (fun b => ge overall (snd b) = false) bands).
Proof.
  induction bands as [|[g t] bands IH]; simpl.
  - right. split; [reflexivity|constructor].
  - destruct (ge overall t) eqn:E.
    + left. exists t. now left.
    + destruct IH as [(t' & Hin)|[HF Hall]].
      * left. exists t'. now right.
      * right. split; [exact HF|]. now constructor.
Qed.

Lemma dict_mem_In {V} k (v : V) d : In (k, v) d -> dict_mem k d = true.
Proof.
  unfold dict_mem. induction d as [|[k' v'] d IH]; simpl; [intros []|].
  intros [[= -> ->]|Hin]; [now rewrite String.eqb_refl|].
  destruct (String.eqb k k'); [reflexivity|auto].
Qed.

Lemma determine_grade_unreached bands overall :
  Forall (fun b => ge overall (snd b) = false) bands ->
  determine_grade bands overall = "F".
Proof.
  induction 1 as [|[g t] bands Hb _ IH]; simpl; [reflexivity|].
  simpl in Hb. now rewrite Hb.
Qed.

(** X24. The grade that [validate_all] returns has an entry in the
    grading table, which the text, markdown and HTML reports look up,
    except in one situation: the score reaches no band and the table has
    no band named [F]. The grade is then the default [F] and the lookup
    finds nothing. *)
Theorem grade_lookup_fails_only_for_default_grade cfg overall :
  let grade := determine_grade (compliance_grading cfg) overall in
  grade_entry_exists cfg grade = false <->
  Forall (fun b => ge overall (snd b) = false) (compliance_grading cfg)
  /\ dict_mem "F" (compliance_grading cfg) = false.
Proof.
  intros grade. subst grade. unfold grade_entry_exists. split.
  - intros Hno.
    destruct (determine_grade_cases (compliance_grading cfg) overall)
      as [(t & Hin)|[HF Hall]].
    + apply dict_mem_In in Hin. congruence.
    + split; [exact Hall|]. now rewrite HF in Hno.
  - intros [Hall HnoF]. now rewrite determine_grade_unreached.
Qed.
